(** * NOVA pipeline: a shallow embedding of [diffnext/pipelines/pipeline_nova.py]

    The pipeline is orchestration code over externally supplied collaborators
    (text encoder, VAE, transformer, scheduler).  The collaborators are taken
    as parameters; everything the pipeline itself computes (the mask schedule,
    prompt assembly, image normalisation, module registration and the shaping
    of the output) is defined here line by line after the Python source. *)

From Stdlib Require Import ZArith List String Bool Lia Arith QArith.
From Stdlib Require Import Reals Lra.
From Stdlib Require Lqa.
From Stdlib Require Uint63 PrimFloat FloatOps SpecFloat.
Import ListNotations.

Close Scope Q_scope.
Close Scope R_scope.
Open Scope nat_scope.

Set Implicit Arguments.

(* ===================================================================== *)
(** ** The cosine mask schedule of [__call__] (source lines 112-116)      *)
(* ===================================================================== *)

Module Schedule.

(** Overflow of numpy's int64 arithmetic: two's complement wrap-around. *)
Definition wrap_int64 (z : Z) : Z :=
  ((z + 2 ^ 63) mod 2 ^ 64 - 2 ^ 63)%Z.

(** [int(np.prod(self.transformer.config.image_base_size))]: a product of
    int64 values, wrapping as numpy's integer product does. *)
Definition num_patches_of (image_base_size : list Z) : Z :=
  fold_right (fun extent acc => wrap_int64 (extent * acc)) 1%Z
    image_base_size.

(** numpy's float64 arithmetic, as far as lines 114-115 use it.  numpy is
    not part of the repository: its operations are an interface, the
    schedule is written over it, and what is assumed of it is the contract
    [FloatContract] below. *)
Class Numpy : Type := {
  float64 : Type;
  (** [x <= y]; false as soon as one side is not a number *)
  fle : float64 -> float64 -> Prop;
  (** conversion of an int64 (an entry of [np.arange], [num_patches]) *)
  of_int64 : Z -> float64;
  fmul : float64 -> float64 -> float64;
  fdiv : float64 -> float64 -> float64;
  np_cos : float64 -> float64;
  np_round : float64 -> float64;
  (** [.astype("int64")] *)
  to_int64 : float64 -> Z;
  np_pi : float64;
  (** the literal [0.5] *)
  half : float64
}.

Section Schedule.

Context {np : Numpy}.

(** One entry of
    [0.5 * np.pi * np.arange(num_inference_steps + 1) / num_inference_steps]:
    the product [0.5 * np.pi] first, then times the index, then the
    division. *)
Definition angle (num_inference_steps i : nat) : float64 :=
  fdiv (fmul (fmul half np_pi) (of_int64 (Z.of_nat i)))
       (of_int64 (Z.of_nat num_inference_steps)).

(** One entry of [mask_ratios = np.cos(...)]. *)
Definition mask_ratio (num_inference_steps i : nat) : float64 :=
  np_cos (angle num_inference_steps i).

Definition mask_ratios (num_inference_steps : nat) : list float64 :=
  map (mask_ratio num_inference_steps) (seq 0 (num_inference_steps + 1)).

(** [np.round(mask_ratios * num_patches).astype("int64")]. *)
Definition mask_length (num_inference_steps : nat) (num_patches : Z)
  : list Z :=
  map (fun r => to_int64 (np_round (fmul r (of_int64 num_patches))))
      (mask_ratios num_inference_steps).

(** One entry of [mask_length], as a function of its index. *)
Definition mask_length_at (num_inference_steps : nat) (num_patches : Z)
    (i : nat) : Z :=
  to_int64
    (np_round (fmul (mask_ratio num_inference_steps i)
                 (of_int64 num_patches))).

End Schedule.

(** Elementwise [a - b] of two int64 arrays of the same length. *)
Definition array_sub (a b : list Z) : list Z :=
  map (fun p => wrap_int64 (fst p - snd p)) (combine a b).

(** [mask_length[:-1] - mask_length[1:]]. *)
Definition consecutive_drops (l : list Z) : list Z :=
  array_sub (removelast l) (tl l).

Definition num_preds {np : Numpy} (num_inference_steps : nat)
    (num_patches : Z) : list Z :=
  consecutive_drops (mask_length num_inference_steps num_patches).

Definition array_sum (l : list Z) : Z := fold_right Z.add 0%Z l.

(** What the schedule needs of float64 arithmetic.  Every line holds of
    IEEE 754 binary64 with rounding to nearest (products, quotients and
    conversions are rounded monotonically; integers up to [2^53] are
    exact) and of a cosine that is exact at 0, stays within [[-1, 1]] and
    does not increase on [[0, 2]]. *)
Record FloatContract (np : Numpy) : Prop := {
  fle_trans : forall x y z : float64, fle x y -> fle y z -> fle x z;
  of_int64_mono : forall a b : Z,
    (- 2 ^ 63 <= a)%Z -> (a <= b)%Z -> (b < 2 ^ 63)%Z ->
    fle (of_int64 a) (of_int64 b);
  half_pi_range :
    fle (of_int64 1) (fmul half np_pi) /\ fle (fmul half np_pi) (of_int64 2);
  fmul_mono_r : forall c x y : float64,
    fle (of_int64 1) c -> fle c (of_int64 2) -> fle x y ->
    fle (fmul c x) (fmul c y);
  fmul_zero_r : forall c : float64,
    fle (of_int64 1) c -> fle c (of_int64 2) ->
    fmul c (of_int64 0) = of_int64 0;
  fdiv_mono_l : forall x y s : float64,
    fle x y -> fle (of_int64 1) s -> fle s (of_int64 (2 ^ 63 - 1)) ->
    fle (fdiv x s) (fdiv y s);
  fdiv_zero_l : forall s : float64,
    fle (of_int64 1) s -> fle s (of_int64 (2 ^ 63 - 1)) ->
    fdiv (of_int64 0) s = of_int64 0;
  fdiv_fmul_le : forall c s : float64,
    fle (of_int64 1) c -> fle c (of_int64 2) ->
    fle (of_int64 1) s -> fle s (of_int64 (2 ^ 63 - 1)) ->
    fle (fdiv (fmul c s) s) (of_int64 2);
  np_cos_zero : np_cos (of_int64 0) = of_int64 1;
  np_cos_antitone : forall x y : float64,
    fle (of_int64 0) x -> fle x y -> fle y (of_int64 2) ->
    fle (np_cos y) (np_cos x);
  np_cos_range : forall x : float64,
    fle (of_int64 0) x -> fle x (of_int64 2) ->
    fle (of_int64 (-1)) (np_cos x) /\ fle (np_cos x) (of_int64 1);
  fmul_mono_l : forall x y p : float64,
    fle (of_int64 (-1)) x -> fle x y -> fle y (of_int64 1) ->
    fle (of_int64 0) p -> fle p (of_int64 (2 ^ 53)) ->
    fle (fmul x p) (fmul y p);
  fmul_one_l : forall z : Z,
    (0 <= z <= 2 ^ 53)%Z -> fmul (of_int64 1) (of_int64 z) = of_int64 z;
  fmul_neg_one_l : forall z : Z,
    (0 <= z <= 2 ^ 53)%Z ->
    fle (of_int64 (- z)) (fmul (of_int64 (-1)) (of_int64 z));
  np_round_mono : forall x y : float64,
    fle x y -> fle (np_round x) (np_round y);
  np_round_of_int64 : forall z : Z,
    (- 2 ^ 53 <= z <= 2 ^ 53)%Z -> np_round (of_int64 z) = of_int64 z;
  to_int64_mono : forall x y : float64,
    fle (of_int64 (- 2 ^ 53)) x -> fle x y -> fle y (of_int64 (2 ^ 53)) ->
    (to_int64 x <= to_int64 y)%Z;
  to_int64_of_int64 : forall z : Z,
    (- 2 ^ 53 <= z <= 2 ^ 53)%Z -> to_int64 (of_int64 z) = z
}.

End Schedule.

(** *** Exact arithmetic: the reals as an instance of the interface *)

Module Exact.

Local Open Scope R_scope.

(** Rounding to the nearest integer, ties going to the even neighbour.
    [Int_part] is the floor and [frac_part] the distance to it. *)
Definition round_half_even (x : R) : Z :=
  let f := Int_part x in
  let d := frac_part x in
  if Rlt_dec d (1 / 2) then f
  else if Rlt_dec (1 / 2) d then (f + 1)%Z
  else if Z.even f then f else (f + 1)%Z.

(** Arithmetic without rounding error.  The conversion to an integer is the
    floor, which agrees with truncation on the integers it is applied to. *)
Definition numpy : Schedule.Numpy :=
  {| Schedule.float64 := R;
     Schedule.fle := Rle;
     Schedule.of_int64 := IZR;
     Schedule.fmul := Rmult;
     Schedule.fdiv := Rdiv;
     Schedule.np_cos := cos;
     Schedule.np_round := fun x => IZR (round_half_even x);
     Schedule.to_int64 := Int_part;
     Schedule.np_pi := PI;
     Schedule.half := 1 / 2 |}.

End Exact.

(** *** IEEE 754 binary64: the machine's floats as an instance *)

Module Binary64.

Import PrimFloat.
Local Open Scope float_scope.

(** [np.pi], and [pi / 2] split into a leading float and its remainder. *)
Definition pi : float := 0x1.921fb54442d18p+1.
Definition pio2_hi : float := 0x1.921fb54442d18p+0.
Definition pio2_lo : float := 0x1.1a62633145c07p-54.
Definition pio4 : float := 0x1.921fb54442d18p-1.

Definition horner (coefficients : list float) (z : float) : float :=
  fold_right (fun c acc => c + z * acc) 0 coefficients.

Definition cos_kernel (r : float) : float :=
  horner [1; -(1/2); 1/24; -(1/720); 1/40320; -(1/3628800); 1/479001600;
          -(1/87178291200); 1/20922789888000; -(1/6402373705728000);
          1/2432902008176640000] (r * r).

Definition sin_kernel (r : float) : float :=
  r * horner [1; -(1/6); 1/120; -(1/5040); 1/362880; -(1/39916800);
              1/6227020800; -(1/1307674368000); 1/355687428096000;
              -(1/121645100408832000)] (r * r).

(** A cosine for arguments in [[0, 3 pi / 4]], the range of the schedule's
    angles: the series around 0 up to [pi / 4], beyond it the sine series
    of [pi / 2 - x] with the remainder of [pi / 2] added back.  The
    library's own cosine is not part of the repository; this one stands in
    for it where the schedule is run on floats. *)
Definition cos (x : float) : float :=
  if x <=? pio4 then cos_kernel x
  else sin_kernel ((pio2_hi - x) + pio2_lo).

(** [np.round]: to the nearest integral float, ties to even, by the
    rounding of the addition itself; floats from [2^52] on are integral. *)
Definition two52 : float := 0x1p+52.

Definition round (x : float) : float :=
  if abs x <? two52 then
    (if 0 <=? x then (x + two52) - two52 else (x - two52) + two52)
  else x.

(** [.astype("int64")]: truncation towards zero; what does not fit (and
    infinities and NaN) becomes the smallest int64. *)
Definition to_int64 (x : float) : Z :=
  match FloatOps.Prim2SF x with
  | SpecFloat.S754_zero _ => 0%Z
  | SpecFloat.S754_finite s m e =>
      let v := (if (0 <=? e)%Z then Z.pos m * 2 ^ e
                else Z.pos m / 2 ^ (- e))%Z in
      let v := if s then (- v)%Z else v in
      if ((- 2 ^ 63 <=? v)%Z && (v <? 2 ^ 63)%Z)%bool then v
      else (- 2 ^ 63)%Z
  | _ => (- 2 ^ 63)%Z
  end.

(** Conversion of an int64, rounded to the nearest float.  The primitive
    conversion takes 63 bits, which holds every magnitude but [2^63]. *)
Definition of_int64 (z : Z) : float :=
  if (z =? - 2 ^ 63)%Z then - 0x1p+63
  else if (0 <=? z)%Z then of_uint63 (Uint63.of_Z z)
  else - of_uint63 (Uint63.of_Z (- z)).

Definition numpy : Schedule.Numpy :=
  {| Schedule.float64 := float;
     Schedule.fle := fun x y => (x <=? y) = true;
     Schedule.of_int64 := of_int64;
     Schedule.fmul := mul;
     Schedule.fdiv := div;
     Schedule.np_cos := cos;
     Schedule.np_round := round;
     Schedule.to_int64 := to_int64;
     Schedule.np_pi := pi;
     Schedule.half := 0.5 |}.

End Binary64.

(* ===================================================================== *)
(** ** Python values and exceptions                                       *)
(* ===================================================================== *)

(** The exceptions the modelled code can raise.  [CollaboratorError] stands
    for whatever a collaborator raises; the pipeline never catches it. *)
Inductive exn : Type :=
| KeyError (key : string)
| KeyErrorInt (key : nat)
| TypeError
| IndexError
| RuntimeError
| CollaboratorError (msg : string).

Definition result (A : Type) : Type := (exn + A)%type.

Definition ok {A : Type} (a : A) : result A := inr a.
Definition raise {A : Type} (e : exn) : result A := inl e.

Definition result_bind {A B : Type} (r : result A) (f : A -> result B)
  : result B :=
  match r with
  | inl e => inl e
  | inr a => f a
  end.

(** A prompt argument is a [str] or a list of [str]. *)
Inductive PromptArg : Type :=
| PStr (s : string)
| PList (l : list string).

(** Python truthiness of an optional prompt: [None], [""] and [[]] are falsy. *)
Definition truthy (a : option PromptArg) : bool :=
  match a with
  | None => false
  | Some (PStr s) => negb (String.eqb s EmptyString)
  | Some (PList l) => negb (Nat.eqb (List.length l) 0)
  end.

(** [a or b]. *)
Definition py_or (a : option PromptArg) (b : PromptArg) : PromptArg :=
  match a with
  | Some v => if truthy a then v else b
  | None => b
  end.

(** [needle in key] on strings. *)
Fixpoint str_contains (needle key : string) : bool :=
  String.prefix needle key ||
  match key with
  | EmptyString => false
  | String _ rest => str_contains needle rest
  end.

(** [guidance_scale > 1] on exact rationals. *)
Definition Qgtb (a b : Q) : bool := negb (Qle_bool a b).

(* ===================================================================== *)
(** ** Tensors: a shape and a row-major buffer                            *)
(* ===================================================================== *)

Module Torch.

Record tensor : Type := Tensor { shape : list nat; data : list Q }.

Definition numel (s : list nat) : nat := fold_right Nat.mul 1%nat s.

(** The buffer holds exactly the elements the shape announces. *)
Definition well_formed (t : tensor) : Prop :=
  List.length (data t) = numel (shape t).

Definition rank (t : tensor) : nat := List.length (shape t).

(** [count] consecutive pieces of [size] elements each. *)
Fixpoint chunks (count size : nat) (l : list Q) : list (list Q) :=
  match count with
  | O => []
  | S c => firstn size l :: chunks c size (skipn size l)
  end.

(** [len(t)]: the extent of dimension 0; a 0-d tensor has no length. *)
Definition py_len (t : tensor) : result nat :=
  match shape t with
  | [] => raise TypeError
  | n :: _ => ok n
  end.

(** Iterating over a tensor yields its slices along dimension 0. *)
Definition unbind (t : tensor) : result (list tensor) :=
  match shape t with
  | [] => raise TypeError
  | n :: rest => ok (map (Tensor rest) (chunks n (numel rest) (data t)))
  end.

(** [t.repeat_interleave(k, dim=0)]: every slice along dimension 0 is
    repeated [k] times in place. *)
Definition repeat_interleave (k : nat) (t : tensor) : result tensor :=
  match shape t with
  | [] => raise IndexError
  | n :: rest =>
      ok (Tensor (n * k :: rest)
            (List.concat (flat_map (fun r => repeat r k)
                       (chunks n (numel rest) (data t)))))
  end.

(** [t.expand(k, -1, -1, -1)]: a leading extent of one is broadcast to [k],
    a rank-3 tensor gets a new leading dimension of extent [k]; any other
    leading extent must already be [k]. *)
Definition expand4 (k : nat) (t : tensor) : result tensor :=
  match shape t with
  | [a; b; c] => ok (Tensor [k; a; b; c] (List.concat (repeat (data t) k)))
  | [n; c; h; w] =>
      if Nat.eqb n 1 then ok (Tensor [k; c; h; w] (List.concat (repeat (data t) k)))
      else if Nat.eqb n k then ok t
      else raise RuntimeError
  | _ => raise RuntimeError
  end.

(** Element [i, j, k] of a rank-3 tensor of extents [_, d1, d2]. *)
Definition item3 (t : tensor) (i j k : nat) : Q :=
  match shape t with
  | [_; d1; d2] => nth ((i * d1 + j) * d2 + k) (data t) 0%Q
  | _ => 0%Q
  end.

(** [t.permute(2, 0, 1)]: the result at [c, h, w] is the input at [h, w, c]. *)
Definition permute_2_0_1 (t : tensor) : result tensor :=
  match shape t with
  | [h; w; c] =>
      ok (Tensor [c; h; w]
            (flat_map (fun ci =>
               flat_map (fun hi =>
                 map (fun wi => nth ((hi * w + wi) * c + ci) (data t) 0%Q)
                     (seq 0 w))
                 (seq 0 h))
               (seq 0 c)))
  | _ => raise RuntimeError
  end.

(** [t.unsqueeze_(0)]. *)
Definition unsqueeze_0 (t : tensor) : tensor :=
  Tensor (1 :: shape t) (data t).

(** [t.sub(v)] and [t.div_(v)], elementwise. *)
Definition sub (v : Q) (t : tensor) : tensor :=
  Tensor (shape t) (map (fun x => (x - v)%Q) (data t)).

Definition div_ (v : Q) (t : tensor) : tensor :=
  Tensor (shape t) (map (fun x => (x / v)%Q) (data t)).

End Torch.

Import Torch.

(* ===================================================================== *)
(** ** Collaborators                                                      *)
(* ===================================================================== *)

(** A [torch.Generator], known by its seed. *)
Definition Generator : Type := nat.

Inductive Device : Type := Cpu | Cuda (index : nat).
Inductive DType : Type := Float16 | BFloat16 | Float32.

(** [transformer.text_embed]. *)
Record TextEmbed : Type := {
  num_tokens : nat;
  encode_prompts : list string -> result tensor
}.

(** The VAE: [encode(x).latent_dist.sample(generator)] and [scale_]. *)
Record Vae : Type := {
  encode_sample : option Generator -> tensor -> result tensor;
  scale_ : tensor -> result tensor
}.

(** The instruction mapping handed to the transformer: the [inputs] dict of
    [__call__] once ["self"] has been popped. *)
Record Inputs : Type := {
  in_generator : option Generator;
  in_latents : list tensor;
  in_prompt : tensor;
  in_num_inference_steps : nat;
  in_num_diffusion_steps : nat;
  in_max_latent_length : nat;
  in_guidance_scale : Q;
  in_motion_flow : list Q;
  in_negative_prompt : option PromptArg;
  in_image : option tensor;
  in_num_images_per_prompt : nat;
  in_output_type : string;
  in_num_patches : Z;
  in_num_preds : list Z;
  in_tqdm1 : bool;
  in_tqdm2 : bool;
  in_batch_size : nat
}.

(** The transformer: its configuration, its text embedder, the generation
    call (the value is [outputs["x"]]) and [postprocess], which rewrites
    [outputs["x"]] in place given the VAE and the inputs. *)
Record Transformer : Type := {
  image_base_size : list Z;
  text_embed : TextEmbed;
  generate : Inputs -> result tensor;
  postprocess : tensor -> Vae -> Inputs -> result tensor
}.

(** Objects as [register_module] sees them: a class name, whether the
    object is a [torch.nn.Module], how it came to be and where it was moved. *)
Inductive Origin : Type :=
| Supplied
| Pretrained (path : string) (torch_dtype : DType)
| Constructed.

Record PyObject : Type := {
  class_name : string;
  is_nn_module : bool;
  origin : Origin;
  placed_on : option Device
}.

(** [model.to(device)]. *)
Definition to_device (d : Device) (o : PyObject) : PyObject :=
  {| class_name := class_name o;
     is_nn_module := is_nn_module o;
     origin := origin o;
     placed_on := Some d |}.

(** A class named by an annotation of [__init__]: [from_pretrained] when
    the class has the attribute, and the call [cls()]. *)
Record PyClass : Type := {
  from_pretrained : option (string -> DType -> result PyObject);
  cls_call : result PyObject
}.

(** [model_or_path]: a string or an object ([None] is an object too). *)
Inductive ModelOrPath : Type :=
| AsPath (path : string)
| AsObject (o : PyObject).

Definition NoneObject : PyObject :=
  {| class_name := "NoneType"; is_nn_module := false;
     origin := Supplied; placed_on := None |}.

(** A dict with string keys, as an association list; assignment replaces. *)
Fixpoint dict_get {V : Type} (d : list (string * V)) (k : string) : option V :=
  match d with
  | [] => None
  | (k', v) :: rest => if String.eqb k' k then Some v else dict_get rest k
  end.

Fixpoint dict_set {V : Type} (d : list (string * V)) (k : string) (v : V)
  : list (string * V) :=
  match d with
  | [] => [(k, v)]
  | (k', v') :: rest =>
      if String.eqb k' k then (k, v) :: rest else (k', v') :: dict_set rest k v
  end.

(* ===================================================================== *)
(** ** The pipeline object and its methods                                *)
(* ===================================================================== *)

Record Pipeline : Type := {
  vae : Vae;
  text_encoder : PyObject;
  tokenizer : PyObject;
  transformer : Transformer;
  scheduler : PyObject;
  tokenizer_max_length : nat;
  guidance_scale : Q;
  device : Device;
  dtype : DType;
  init_annotations : list (string * PyClass);
  config : list (string * string)
}.

(** [NOVAPipeline.__init__] declares its parameters without annotations. *)
Definition NOVAPipeline_init_annotations : list (string * PyClass) := [].

(** Conversions a call performs on its result, in the order they happen. *)
Inductive Event : Type :=
| CpuNumpy                      (* [outputs["x"].cpu().numpy()] *)
| FromArray (image : tensor).   (* [PIL.Image.fromarray(image)] *)

Record World : Type := { self : Pipeline; trace : list Event }.

(** State of the pipeline object plus the trace, with exceptions. *)
Definition M (A : Type) : Type := World -> World * result A.

Definition ret {A : Type} (a : A) : M A := fun w => (w, ok a).

Definition bind {A B : Type} (m : M A) (f : A -> M B) : M B :=
  fun w =>
    match m w with
    | (w', inl e) => (w', inl e)
    | (w', inr a) => f a w'
    end.

Definition lift {A : Type} (r : result A) : M A := fun w => (w, r).

Definition get_self : M Pipeline := fun w => (w, ok (self w)).

Definition put_self (p : Pipeline) : M unit :=
  fun w => ({| self := p; trace := trace w |}, ok tt).

Definition emit (evs : list Event) : M unit :=
  fun w => ({| self := self w; trace := trace w ++ evs |}, ok tt).

Declare Scope pipeline_scope.
Delimit Scope pipeline_scope with pipeline.

Notation "x <- m ;; k" := (bind m (fun x => k))
  (at level 100, m at next level, right associativity) : pipeline_scope.
Notation "m ;;; k" := (bind m (fun _ => k))
  (at level 100, right associativity) : pipeline_scope.

Local Open Scope pipeline_scope.
Local Open Scope string_scope.

(** [self.guidance_scale = guidance_scale]. *)
Definition set_guidance_scale (g : Q) : M unit :=
  p <- get_self ;;
  put_self {| vae := vae p; text_encoder := text_encoder p;
              tokenizer := tokenizer p; transformer := transformer p;
              scheduler := scheduler p;
              tokenizer_max_length := tokenizer_max_length p;
              guidance_scale := g;
              device := device p; dtype := dtype p;
              init_annotations := init_annotations p;
              config := config p |}.

(** [self.register_to_config] with the single keyword [name = value]. *)
Definition register_to_config (name value : string) : M unit :=
  p <- get_self ;;
  put_self {| vae := vae p; text_encoder := text_encoder p;
              tokenizer := tokenizer p; transformer := transformer p;
              scheduler := scheduler p;
              tokenizer_max_length := tokenizer_max_length p;
              guidance_scale := guidance_scale p;
              device := device p; dtype := dtype p;
              init_annotations := init_annotations p;
              config := dict_set (config p) name value |}.

(** *** [register_module] (source lines 196-217) *)

Definition register_module (model_or_path : ModelOrPath) (name : string)
  : M PyObject :=
  p <- get_self ;;
  model <-
    match model_or_path with
    | AsObject o => ret o
    | AsPath path =>
        (* cls = self.__init__.__annotations__[name] *)
        cls <- lift (match dict_get (init_annotations p) name with
                     | Some c => ok c
                     | None => raise (KeyError name)
                     end) ;;
        (* if hasattr(cls, "from_pretrained") and model_or_path: ... *)
        match from_pretrained cls with
        | Some load =>
            if negb (String.eqb path "") then
              model <- lift (load path (dtype p)) ;;
              let model :=
                if is_nn_module model then to_device (device p) model
                else model in
              let _ := model in
              (* model = cls() *)
              lift (cls_call cls)
            else lift (cls_call cls)
        | None => lift (cls_call cls)
        end
    end ;;
  register_to_config name (class_name model) ;;;
  ret model.

(** *** The registrations of [__init__] (source lines 57-61) *)

(** The five [self.x = self.register_module(x, "x")] statements, in the
    order of the source; the value is the five registered objects. *)
Definition register_components
    (transformer_arg scheduler_arg vae_arg text_encoder_arg tokenizer_arg
       : ModelOrPath)
  : M (PyObject * PyObject * PyObject * PyObject * PyObject) :=
  vae_obj <- register_module vae_arg "vae" ;;
  text_encoder_obj <- register_module text_encoder_arg "text_encoder" ;;
  tokenizer_obj <- register_module tokenizer_arg "tokenizer" ;;
  transformer_obj <- register_module transformer_arg "transformer" ;;
  scheduler_obj <- register_module scheduler_arg "scheduler" ;;
  ret (vae_obj, text_encoder_obj, tokenizer_obj, transformer_obj,
       scheduler_obj).

(** *** [encode_prompt] (source lines 153-175) *)

Definition select_or_pad (a : option PromptArg) (b : PromptArg) (n : nat)
  : list string :=
  match py_or a b with
  | PStr s => repeat s n
  | PList l => l
  end.

(** [[prompt] if isinstance(prompt, str) else prompt]. *)
Definition as_prompt_list (prompt : PromptArg) : list string :=
  match prompt with
  | PStr s => [s]
  | PList l => l
  end.

Definition encode_prompt (prompt : PromptArg) (num_images_per_prompt : nat)
    (negative_prompt : option PromptArg) : M tensor :=
  p <- get_self ;;
  let prompt := as_prompt_list prompt in
  let negative_prompt :=
    select_or_pad negative_prompt (PStr "") (List.length prompt) in
  let prompts :=
    (prompt ++ (if Qgtb (guidance_scale p) 1 then negative_prompt else []))%list in
  c <- lift (encode_prompts (text_embed (transformer p)) prompts) ;;
  lift (repeat_interleave num_images_per_prompt c).

(** *** [encode_image] (source lines 177-194) and [prepare_latents] (132-151) *)

(** What [x.sub(127.5).div_(127.5)] does to one element. *)
Definition normalize_value (v : Q) : Q := ((v - (255 # 2)) / (255 # 2))%Q.

(** [x.sub(127.5).div_(127.5)]. *)
Definition normalize (x : tensor) : tensor :=
  div_ (255 # 2) (sub (255 # 2) x).

Definition encode_image (image : tensor) (num_images_per_prompt : nat)
    (generator : option Generator) : M tensor :=
  p <- get_self ;;
  (* torch.as_tensor(image, device=self.device).to(dtype=self.dtype): the
     same shape and, elements being exact here, the same values *)
  let x := image in
  x <- lift (permute_2_0_1 (normalize x)) ;;
  let x := unsqueeze_0 x in
  z <- lift (encode_sample (vae p) generator x) ;;
  x <- lift (scale_ (vae p) z) ;;
  lift (expand4 num_images_per_prompt x).

Definition prepare_latents (image : option tensor) (num_images_per_prompt : nat)
    (generator : option Generator) : M (list tensor) :=
  match image with
  | None => ret []
  | Some image =>
      latent <- encode_image image num_images_per_prompt generator ;;
      ret [latent]
  end.

(** *** [__call__] (source lines 111-130) *)

Record CallArgs : Type := {
  arg_prompt : PromptArg;
  arg_num_inference_steps : nat;
  arg_num_diffusion_steps : nat;
  arg_max_latent_length : nat;
  arg_guidance_scale : Q;
  arg_motion_flow : Q;
  arg_negative_prompt : option PromptArg;
  arg_image : option tensor;
  arg_num_images_per_prompt : nat;
  arg_generator : option Generator;
  arg_output_type : string
}.

(** The keys of [inputs] when [encode_prompt] is called: the two literal
    keys, then [locals()] in order, then the keys added on lines 116-117. *)
Definition inputs_keys : list string :=
  ["generator"; "latents"; "self"; "prompt"; "num_inference_steps";
   "num_diffusion_steps"; "max_latent_length"; "guidance_scale";
   "motion_flow"; "negative_prompt"; "image"; "num_images_per_prompt";
   "output_type"; "kwargs"; "num_patches"; "num_preds"; "tqdm1"; "tqdm2"].

(** The keyword arguments selected by [if "prompt" in key]. *)
Definition prompt_kwargs : list string :=
  filter (str_contains "prompt") inputs_keys.

(** The [inputs] dict as the transformer receives it, given the encoded
    prompt, the latents and [len(inputs["prompt"])]. *)
Definition assemble_inputs {np : Schedule.Numpy} (a : CallArgs)
    (p : Pipeline) (prompt : tensor) (latents : list tensor) (n : nat)
  : Inputs :=
  let num_patches :=
    Schedule.num_patches_of (image_base_size (transformer p)) in
  let num_preds :=
    Schedule.num_preds (arg_num_inference_steps a) num_patches in
  let tqdm1 := Nat.ltb 1 (arg_max_latent_length a) in
  let tqdm2 := Nat.eqb (arg_max_latent_length a) 1 in
  let batch_size :=
    Nat.div n (if Qgtb (arg_guidance_scale a) 1 then 2 else 1) in
  let motion_flow := repeat (arg_motion_flow a) batch_size in
  {| in_generator := arg_generator a;
     in_latents := latents;
     in_prompt := prompt;
     in_num_inference_steps := arg_num_inference_steps a;
     in_num_diffusion_steps := arg_num_diffusion_steps a;
     in_max_latent_length := arg_max_latent_length a;
     in_guidance_scale := arg_guidance_scale a;
     in_motion_flow := motion_flow;
     in_negative_prompt := arg_negative_prompt a;
     in_image := arg_image a;
     in_num_images_per_prompt := arg_num_images_per_prompt a;
     in_output_type := arg_output_type a;
     in_num_patches := num_patches;
     in_num_preds := num_preds;
     in_tqdm1 := tqdm1;
     in_tqdm2 := tqdm2;
     in_batch_size := batch_size |}.

(** Lines 112-121: everything [__call__] does before it calls the
    transformer, in the order of the source: the schedule, the prompt, the
    latents, then the batch size and the motion flow. *)
Definition prepare_inputs {np : Schedule.Numpy} (a : CallArgs) : M Inputs :=
  p <- get_self ;;
  prompt <- encode_prompt (arg_prompt a) (arg_num_images_per_prompt a)
              (arg_negative_prompt a) ;;
  latents <- prepare_latents (arg_image a) (arg_num_images_per_prompt a)
               (arg_generator a) ;;
  n <- lift (py_len prompt) ;;
  ret (assemble_inputs a p prompt latents n).

(** A [PIL.Image] made by [fromarray]. *)
Record PILImage : Type := { pixels : tensor }.

Inductive Payload : Type :=
| NumpyArray (a : tensor)
| PILImages (l : list PILImage).

(** [NOVAPipelineOutput]: the field not given stays unset. *)
Record NOVAPipelineOutput : Type := {
  images : option Payload;
  frames : option Payload
}.

(** [NOVAPipelineOutput] called with one keyword [output_name = value]. *)
Definition make_output (output_name : string) (value : Payload)
  : result NOVAPipelineOutput :=
  if String.eqb output_name "images" then
    ok {| images := Some value; frames := None |}
  else if String.eqb output_name "frames" then
    ok {| images := None; frames := Some value |}
  else raise TypeError.

(** What [__call__] returns: the torch tensor itself or a tagged output. *)
Inductive CallResult : Type :=
| RawTensor (x : tensor)
| Output (o : NOVAPipelineOutput).

(** The table [{4: "images", 5: "frames"}] and its subscript. *)
Definition output_names : list (nat * string) := [(4, "images"); (5, "frames")].

Fixpoint table_get (d : list (nat * string)) (k : nat) : result string :=
  match d with
  | [] => raise (KeyErrorInt k)
  | (k', v) :: rest => if Nat.eqb k' k then ok v else table_get rest k
  end.

(** Lines 124-130: shaping the result. *)
Definition format_output (output_type : string) (x : tensor) : M CallResult :=
  if String.eqb output_type "latent" || String.eqb output_type "pt" then
    ret (RawTensor x)
  else
    emit [CpuNumpy] ;;;
    let x := x in
    output_name <- lift (table_get output_names (rank x)) ;;
    if String.eqb output_type "pil" && String.eqb output_name "images" then
      slices <- lift (unbind x) ;;
      emit (map FromArray slices) ;;;
      o <- lift (make_output output_name
                   (PILImages (map (fun image => {| pixels := image |}) slices))) ;;
      ret (Output o)
    else
      o <- lift (make_output output_name (NumpyArray x)) ;;
      ret (Output o).

(** Lines 111-123: set the field, assemble the inputs, run the transformer
    and its post-processing. *)
Definition sample {np : Schedule.Numpy} (a : CallArgs) : M tensor :=
  set_guidance_scale (arg_guidance_scale a) ;;;
  inputs <- prepare_inputs a ;;
  p <- get_self ;;
  x <- lift (generate (transformer p) inputs) ;;
  lift (postprocess (transformer p) x (vae p) inputs).

Definition __call__ {np : Schedule.Numpy} (a : CallArgs) : M CallResult :=
  x <- sample a ;;
  format_output (arg_output_type a) x.

(** The world once [outputs["x"]] has been brought to host memory. *)
Definition on_host (w : World) : World :=
  {| self := self w; trace := trace w ++ [CpuNumpy] |}.

(** *** What a method may touch *)

(** A method that only reads: whatever the outcome, the world is as before. *)
Definition reads_only {A : Type} (m : M A) : Prop :=
  forall w, fst (m w) = w.

(** A method that leaves every field of the pipeline object alone (it may
    still add to the trace). *)
Definition keeps_self {A : Type} (m : M A) : Prop :=
  forall w, self (fst (m w)) = self w.

(* ===================================================================== *)
(** ** Concrete collaborators, for running the methods on examples        *)
(* ===================================================================== *)

(** A text embedder with one number per prompt: the length of its text. *)
Definition example_text_embed : TextEmbed :=
  {| num_tokens := 1;
     encode_prompts := fun prompts =>
       ok (Tensor [List.length prompts; 1]
             (map (fun s => inject_Z (Z.of_nat (String.length s))) prompts)) |}.

(** A VAE that hands its input through. *)
Definition example_vae : Vae :=
  {| encode_sample := fun _ x => ok x;
     scale_ := fun x => ok x |}.

(** A transformer that answers with zeros of a chosen shape. *)
Definition example_transformer (out_shape : list nat) : Transformer :=
  {| image_base_size := [16%Z; 16%Z];
     text_embed := example_text_embed;
     generate := fun _ => ok (Tensor out_shape (repeat 0%Q (numel out_shape)));
     postprocess := fun x _ _ => ok x |}.

Definition example_object (name : string) : PyObject :=
  {| class_name := name; is_nn_module := true;
     origin := Supplied; placed_on := None |}.

(** A class that can be loaded from a checkpoint and also built bare. *)
Definition example_class (name : string) : PyClass :=
  {| from_pretrained := Some (fun path torch_dtype =>
       ok {| class_name := name; is_nn_module := true;
             origin := Pretrained path torch_dtype; placed_on := None |});
     cls_call :=
       ok {| class_name := name; is_nn_module := true;
             origin := Constructed; placed_on := None |} |}.

(** A class whose checkpoint cannot be loaded but that can be built bare. *)
Definition example_unloadable_class (name : string) : PyClass :=
  {| from_pretrained := Some (fun _ _ =>
       raise (CollaboratorError "no such checkpoint"));
     cls_call :=
       ok {| class_name := name; is_nn_module := true;
             origin := Constructed; placed_on := None |} |}.

Definition example_pipeline (g : Q) (out_shape : list nat)
    (annotations : list (string * PyClass)) : Pipeline :=
  {| vae := example_vae;
     text_encoder := example_object "T5EncoderModel";
     tokenizer := example_object "T5Tokenizer";
     transformer := example_transformer out_shape;
     scheduler := example_object "FlowMatchEulerDiscreteScheduler";
     tokenizer_max_length := 1;
     guidance_scale := g;
     device := Cuda 0;
     dtype := Float16;
     init_annotations := annotations;
     config := [] |}.

(** A pipeline with guidance on whose transformer answers with a tensor of
    the given shape, and nothing traced yet. *)
Definition example_world (out_shape : list nat) : World :=
  {| self := example_pipeline 5%Q out_shape []; trace := [] |}.

(** A pipeline whose [__init__] carries the given annotations. *)
Definition annotated_world (annotations : list (string * PyClass)) : World :=
  {| self := example_pipeline 5%Q [1; 1; 1; 3] annotations; trace := [] |}.

(** A pipeline with guidance off ([guidance_scale = 1]). *)
Definition unguided : World :=
  {| self := example_pipeline 1%Q [1; 1; 1; 3] []; trace := [] |}.

(** A pipeline whose text encoder raises. *)
Definition encoder_down : World :=
  {| self :=
       {| vae := example_vae;
          text_encoder := example_object "T5EncoderModel";
          tokenizer := example_object "T5Tokenizer";
          transformer :=
            {| image_base_size := [16%Z; 16%Z];
               text_embed :=
                 {| num_tokens := 1;
                    encode_prompts := fun _ =>
                      raise (CollaboratorError "tokenizer missing") |};
               generate := fun _ => ok (Tensor [1; 1; 1; 3] [0; 0; 0]%Q);
               postprocess := fun x _ _ => ok x |};
          scheduler := example_object "FlowMatchEulerDiscreteScheduler";
          tokenizer_max_length := 1;
          guidance_scale := 5%Q;
          device := Cuda 0;
          dtype := Float16;
          init_annotations := [];
          config := [] |};
     trace := [] |}.

(** A pipeline whose transformer raises when asked to generate. *)
Definition transformer_down : World :=
  {| self :=
       {| vae := example_vae;
          text_encoder := example_object "T5EncoderModel";
          tokenizer := example_object "T5Tokenizer";
          transformer :=
            {| image_base_size := [16%Z; 16%Z];
               text_embed := example_text_embed;
               generate := fun _ =>
                 raise (CollaboratorError "CUDA out of memory");
               postprocess := fun x _ _ => ok x |};
          scheduler := example_object "FlowMatchEulerDiscreteScheduler";
          tokenizer_max_length := 1;
          guidance_scale := 5%Q;
          device := Cuda 0;
          dtype := Float16;
          init_annotations := [];
          config := [] |};
     trace := [] |}.

(** The same, answering with one 1x1 RGB image. *)
Definition guided : World := example_world [1; 1; 1; 3].

Definition example_args (prompt : PromptArg) (g : Q)
    (negative_prompt : option PromptArg) (output_type : string) : CallArgs :=
  {| arg_prompt := prompt;
     arg_num_inference_steps := 64;
     arg_num_diffusion_steps := 25;
     arg_max_latent_length := 1;
     arg_guidance_scale := g;
     arg_motion_flow := 5%Q;
     arg_negative_prompt := negative_prompt;
     arg_image := None;
     arg_num_images_per_prompt := 1;
     arg_generator := None;
     arg_output_type := output_type |}.



(* ===================================================================== *)
(** * Properties                                                          *)
(* ===================================================================== *)

(** ** The mask schedule *)

Section ScheduleFacts.

Import Schedule.
Local Open Scope R_scope.

Lemma round_half_even_near (x : R) :
  IZR (Exact.round_half_even x) - 1 / 2 <= x
  <= IZR (Exact.round_half_even x) + 1 / 2.
Proof.
  unfold Exact.round_half_even.
  destruct (base_fp x) as [Hge Hlt].
  assert (Hx : x = IZR (Int_part x) + frac_part x) by (unfold frac_part; lra).
  set (f := Int_part x) in *. set (d := frac_part x) in *.
  destruct (Rlt_dec d (1 / 2)) as [Hd | Hd].
  - lra.
  - destruct (Rlt_dec (1 / 2) d) as [Hd' | Hd'].
    + rewrite plus_IZR. lra.
    + destruct (Z.even f); [| rewrite plus_IZR]; lra.
Qed.

Lemma round_half_even_mono (x y : R) :
  x <= y -> (Exact.round_half_even x <= Exact.round_half_even y)%Z.
Proof.
  intros Hxy.
  destruct (Z_le_gt_dec (Exact.round_half_even x) (Exact.round_half_even y))
    as [H | H]; [exact H |].
  exfalso.
  assert (H1 : (Exact.round_half_even y + 1 <= Exact.round_half_even x)%Z)
    by lia.
  apply IZR_le in H1. rewrite plus_IZR in H1.
  pose proof (round_half_even_near x) as Hx.
  pose proof (round_half_even_near y) as Hy.
  assert (Heq : x = y) by lra.
  subst y. lia.
Qed.

Lemma round_half_even_IZR (z : Z) : Exact.round_half_even (IZR z) = z.
Proof.
  pose proof (round_half_even_near (IZR z)) as H.
  apply Z.le_antisymm.
  - apply Z.lt_succ_r. apply lt_IZR. rewrite succ_IZR. lra.
  - apply Z.lt_succ_r. apply lt_IZR. rewrite succ_IZR. lra.
Qed.

Lemma floor_near (x : R) : IZR (Int_part x) <= x < IZR (Int_part x) + 1.
Proof.
  destruct (base_fp x) as [Hge Hlt]. unfold frac_part in *. lra.
Qed.

Lemma floor_mono (x y : R) : x <= y -> (Int_part x <= Int_part y)%Z.
Proof.
  intros Hxy.
  destruct (Z_le_gt_dec (Int_part x) (Int_part y)) as [H | H]; [exact H |].
  exfalso.
  assert (H1 : (Int_part y + 1 <= Int_part x)%Z) by lia.
  apply IZR_le in H1. rewrite plus_IZR in H1.
  pose proof (floor_near x). pose proof (floor_near y). lra.
Qed.

Lemma floor_IZR (z : Z) : Int_part (IZR z) = z.
Proof.
  pose proof (floor_near (IZR z)) as [H1 H2].
  apply Z.le_antisymm.
  - apply le_IZR. exact H1.
  - apply Z.lt_succ_r. apply lt_IZR. rewrite succ_IZR. exact H2.
Qed.

Lemma wrap_int64_small (z : Z) :
  (- 2 ^ 63 <= z < 2 ^ 63)%Z -> wrap_int64 z = z.
Proof.
  intros H. unfold wrap_int64.
  rewrite Z.mod_small by lia. lia.
Qed.

(** *** Consecutive differences telescope *)

Lemma consecutive_drops_step (a b : Z) (l : list Z) :
  consecutive_drops (a :: b :: l)
  = wrap_int64 (a - b) :: consecutive_drops (b :: l).
Proof. reflexivity. Qed.

(** Entries below [2^62] in size are subtracted without overflow. *)
Lemma consecutive_drops_step_small (a b : Z) (l : list Z) :
  (- 2 ^ 62 <= a < 2 ^ 62)%Z -> (- 2 ^ 62 <= b < 2 ^ 62)%Z ->
  consecutive_drops (a :: b :: l) = (a - b)%Z :: consecutive_drops (b :: l).
Proof.
  intros Ha Hb. rewrite consecutive_drops_step.
  rewrite wrap_int64_small by lia. reflexivity.
Qed.

Lemma consecutive_drops_length (l : list Z) :
  List.length (consecutive_drops l) = (List.length l - 1)%nat.
Proof.
  induction l as [| a [| b l] IH]; try reflexivity.
  rewrite consecutive_drops_step. cbn [List.length] in *. lia.
Qed.

(** A table read off a function that never increases has no negative drop. *)
Lemma consecutive_drops_nonneg (f : nat -> Z) (n a : nat) :
  (forall i, (a <= i)%nat -> (i < a + n)%nat ->
             (- 2 ^ 62 <= f i < 2 ^ 62)%Z) ->
  (forall i, (a <= i)%nat -> (i < a + n - 1)%nat -> (f (S i) <= f i)%Z) ->
  Forall (fun d => (0 <= d)%Z) (consecutive_drops (map f (seq a n))).
Proof.
  revert a. induction n as [| n IH]; intros a Hb Hf.
  - constructor.
  - destruct n as [| n].
    + constructor.
    + change (map f (seq a (S (S n))))
        with (f a :: f (S a) :: map f (seq (S (S a)) n)).
      rewrite consecutive_drops_step_small by (apply Hb; lia).
      constructor.
      * specialize (Hf a). lia.
      * apply (IH (S a)).
        -- intros i Hi1 Hi2. apply Hb; lia.
        -- intros i Hi1 Hi2. apply Hf; lia.
Qed.

Lemma table_first (f : nat -> Z) (n : nat) :
  hd 0%Z (map f (seq 0 (n + 1))) = f 0%nat.
Proof. rewrite Nat.add_1_r. reflexivity. Qed.

Lemma table_last (f : nat -> Z) (n : nat) :
  last (map f (seq 0 (n + 1))) 0%Z = f n.
Proof.
  rewrite Nat.add_1_r, seq_S, map_app. cbn [map Nat.add].
  apply last_last.
Qed.

(** The first [i] drops add up to the fall from the first entry to
    entry [i]. *)
Lemma drops_prefix_sum (f : nat -> Z) (n a i : nat) :
  (forall j, (a <= j)%nat -> (j <= a + n)%nat ->
             (- 2 ^ 62 <= f j < 2 ^ 62)%Z) ->
  (i <= n)%nat ->
  array_sum (firstn i (consecutive_drops (map f (seq a (S n)))))
  = (f a - f (a + i)%nat)%Z.
Proof.
  revert a n. induction i as [| i IH]; intros a n Hb Hi.
  - cbn [firstn array_sum fold_right]. rewrite Nat.add_0_r. lia.
  - destruct n as [| n]; [lia |].
    change (map f (seq a (S (S n))))
      with (f a :: f (S a) :: map f (seq (S (S a)) n)).
    rewrite consecutive_drops_step_small by (apply Hb; lia).
    cbn [firstn].
    change (f (S a) :: map f (seq (S (S a)) n))
      with (map f (seq (S a) (S n))).
    change (array_sum ((f a - f (S a))%Z
                       :: firstn i (consecutive_drops
                                      (map f (seq (S a) (S n))))))
      with ((f a - f (S a))
            + array_sum (firstn i (consecutive_drops
                                     (map f (seq (S a) (S n))))))%Z.
    rewrite (IH (S a) n) by (try lia; intros j Hj1 Hj2; apply Hb; lia).
    replace (a + S i)%nat with (S a + i)%nat by lia. lia.
Qed.

End ScheduleFacts.

(** *** The schedule over any arithmetic that keeps the contract *)

Section CosineSchedule.

Import Schedule.

Context {np : Numpy}.
Hypothesis contract : FloatContract np.

Variable num_inference_steps : nat.
Variable num_patches : Z.
Hypothesis steps_positive : 1 <= num_inference_steps.
Hypothesis steps_fit : (Z.of_nat num_inference_steps < 2 ^ 63)%Z.
Hypothesis patches_in_range : (0 <= num_patches <= 2 ^ 53)%Z.

Lemma half_pi_low : fle (of_int64 1) (fmul half np_pi).
Proof. apply (half_pi_range contract). Qed.

Lemma half_pi_high : fle (fmul half np_pi) (of_int64 2).
Proof. apply (half_pi_range contract). Qed.

Lemma steps_low : fle (of_int64 1) (of_int64 (Z.of_nat num_inference_steps)).
Proof. apply (of_int64_mono contract); lia. Qed.

Lemma steps_high :
  fle (of_int64 (Z.of_nat num_inference_steps)) (of_int64 (2 ^ 63 - 1)).
Proof. apply (of_int64_mono contract); lia. Qed.

Lemma angle_first : angle num_inference_steps 0 = of_int64 0.
Proof.
  unfold angle. cbn [Z.of_nat].
  rewrite (fmul_zero_r contract _ half_pi_low half_pi_high).
  apply (fdiv_zero_l contract _ steps_low steps_high).
Qed.

Lemma angle_mono (i j : nat) :
  i <= j -> j <= num_inference_steps ->
  fle (angle num_inference_steps i) (angle num_inference_steps j).
Proof.
  intros Hij Hj. unfold angle.
  apply (fdiv_mono_l contract); [| exact steps_low | exact steps_high].
  apply (fmul_mono_r contract); [exact half_pi_low | exact half_pi_high |].
  apply (of_int64_mono contract); lia.
Qed.

Lemma angle_nonneg (j : nat) :
  j <= num_inference_steps -> fle (of_int64 0) (angle num_inference_steps j).
Proof.
  intros Hj. rewrite <- angle_first. apply angle_mono; lia.
Qed.

Lemma angle_top (j : nat) :
  j <= num_inference_steps -> fle (angle num_inference_steps j) (of_int64 2).
Proof.
  intros Hj.
  apply (fle_trans contract) with (angle num_inference_steps num_inference_steps).
  - apply angle_mono; lia.
  - unfold angle.
    apply (fdiv_fmul_le contract);
      [exact half_pi_low | exact half_pi_high | exact steps_low
      | exact steps_high].
Qed.

Lemma mask_ratio_antitone (i : nat) :
  S i <= num_inference_steps ->
  fle (mask_ratio num_inference_steps (S i)) (mask_ratio num_inference_steps i).
Proof.
  intros Hi. unfold mask_ratio.
  apply (np_cos_antitone contract).
  - apply angle_nonneg. lia.
  - apply angle_mono; lia.
  - apply angle_top. exact Hi.
Qed.

Lemma mask_ratio_range (j : nat) :
  j <= num_inference_steps ->
  fle (of_int64 (-1)) (mask_ratio num_inference_steps j)
  /\ fle (mask_ratio num_inference_steps j) (of_int64 1).
Proof.
  intros Hj. unfold mask_ratio.
  apply (np_cos_range contract); [now apply angle_nonneg | now apply angle_top].
Qed.

Lemma patches_low : fle (of_int64 0) (of_int64 num_patches).
Proof. apply (of_int64_mono contract); lia. Qed.

Lemma patches_high : fle (of_int64 num_patches) (of_int64 (2 ^ 53)).
Proof. apply (of_int64_mono contract); lia. Qed.

Lemma fle_int_refl (z : Z) :
  (- 2 ^ 63 <= z < 2 ^ 63)%Z -> fle (of_int64 z) (of_int64 z).
Proof. intros H. apply (of_int64_mono contract); lia. Qed.

Lemma product_mono (i : nat) :
  S i <= num_inference_steps ->
  fle (fmul (mask_ratio num_inference_steps (S i)) (of_int64 num_patches))
      (fmul (mask_ratio num_inference_steps i) (of_int64 num_patches)).
Proof.
  intros Hi.
  apply (fmul_mono_l contract);
    [| now apply mask_ratio_antitone | | exact patches_low
     | exact patches_high].
  - apply mask_ratio_range. exact Hi.
  - apply mask_ratio_range. lia.
Qed.

Lemma product_range (j : nat) :
  j <= num_inference_steps ->
  fle (of_int64 (- num_patches))
      (fmul (mask_ratio num_inference_steps j) (of_int64 num_patches))
  /\ fle (fmul (mask_ratio num_inference_steps j) (of_int64 num_patches))
         (of_int64 num_patches).
Proof.
  intros Hj. destruct (mask_ratio_range Hj) as [Hlow Hhigh].
  split.
  - apply (fle_trans contract)
      with (fmul (of_int64 (-1)) (of_int64 num_patches));
      [exact (fmul_neg_one_l contract patches_in_range) |].
    apply (fmul_mono_l contract);
      [apply fle_int_refl; lia | exact Hlow | exact Hhigh | exact patches_low
      | exact patches_high].
  - rewrite <- (fmul_one_l contract patches_in_range) at 2.
    apply (fmul_mono_l contract);
      [exact Hlow | exact Hhigh | apply fle_int_refl; lia | exact patches_low
      | exact patches_high].
Qed.

Lemma rounded_range (j : nat) :
  j <= num_inference_steps ->
  fle (of_int64 (- num_patches))
      (np_round (fmul (mask_ratio num_inference_steps j)
                   (of_int64 num_patches)))
  /\ fle (np_round (fmul (mask_ratio num_inference_steps j)
                      (of_int64 num_patches)))
         (of_int64 num_patches).
Proof.
  intros Hj. destruct (product_range Hj) as [Hlow Hhigh].
  split.
  - rewrite <- (np_round_of_int64 contract (z := - num_patches)) by lia.
    now apply (np_round_mono contract).
  - rewrite <- (np_round_of_int64 contract (z := num_patches)) at 2 by lia.
    now apply (np_round_mono contract).
Qed.

Lemma mask_length_table :
  mask_length num_inference_steps num_patches
  = map (mask_length_at num_inference_steps num_patches)
      (seq 0 (num_inference_steps + 1)).
Proof. unfold mask_length, mask_ratios. rewrite map_map. reflexivity. Qed.

Lemma mask_length_at_decreasing (i : nat) :
  S i <= num_inference_steps ->
  (mask_length_at num_inference_steps num_patches (S i)
   <= mask_length_at num_inference_steps num_patches i)%Z.
Proof.
  intros Hi. unfold mask_length_at.
  assert (Hi' : i <= num_inference_steps) by lia.
  destruct (rounded_range Hi) as [Hlow _].
  destruct (rounded_range Hi') as [_ Hhigh].
  apply (to_int64_mono contract).
  - apply (fle_trans contract) with (of_int64 (- num_patches)); [| exact Hlow].
    apply (of_int64_mono contract); lia.
  - apply (np_round_mono contract). now apply product_mono.
  - apply (fle_trans contract) with (of_int64 num_patches); [exact Hhigh |].
    exact patches_high.
Qed.

Lemma mask_length_first :
  mask_length_at num_inference_steps num_patches 0 = num_patches.
Proof.
  unfold mask_length_at, mask_ratio.
  rewrite angle_first, (np_cos_zero contract).
  rewrite (fmul_one_l contract patches_in_range).
  rewrite (np_round_of_int64 contract) by lia.
  apply (to_int64_of_int64 contract). lia.
Qed.

Lemma mask_length_at_range (j : nat) :
  j <= num_inference_steps ->
  (- num_patches <= mask_length_at num_inference_steps num_patches j
   <= num_patches)%Z.
Proof.
  intros Hj. unfold mask_length_at.
  destruct (rounded_range Hj) as [Hlow Hhigh].
  split.
  - rewrite <- (to_int64_of_int64 contract (z := - num_patches)) at 1 by lia.
    apply (to_int64_mono contract); [| exact Hlow |].
    + apply (of_int64_mono contract); lia.
    + apply (fle_trans contract) with (of_int64 num_patches);
        [exact Hhigh | exact patches_high].
  - rewrite <- (to_int64_of_int64 contract (z := num_patches)) at 2 by lia.
    apply (to_int64_mono contract); [| exact Hhigh | exact patches_high].
    apply (fle_trans contract) with (of_int64 (- num_patches)); [| exact Hlow].
    apply (of_int64_mono contract); lia.
Qed.

(** The shape of [num_preds]: one entry per step, none negative, and the
    first [i] of them add up to the fall of the mask length from
    [num_patches] to its entry [i]. *)
Lemma num_preds_shape :
  List.length (num_preds num_inference_steps num_patches)
  = num_inference_steps
  /\ Forall (fun d => (0 <= d)%Z) (num_preds num_inference_steps num_patches)
  /\ (forall i, i <= num_inference_steps ->
        array_sum (firstn i (num_preds num_inference_steps num_patches))
        = (num_patches
           - mask_length_at num_inference_steps num_patches i)%Z).
Proof.
  assert (Hsmall : forall j, j <= num_inference_steps ->
            (- 2 ^ 62 <= mask_length_at num_inference_steps num_patches j
             < 2 ^ 62)%Z).
  { intros j Hj. pose proof (mask_length_at_range Hj). lia. }
  unfold num_preds. rewrite mask_length_table.
  split; [| split].
  - rewrite consecutive_drops_length, length_map, length_seq. lia.
  - apply consecutive_drops_nonneg.
    + intros i _ Hi. apply Hsmall. lia.
    + intros i _ Hi. apply mask_length_at_decreasing. lia.
  - intros i Hi.
    rewrite Nat.add_1_r, drops_prefix_sum;
      [| intros j _ Hj; apply Hsmall; lia | exact Hi].
    cbn [Nat.add]. now rewrite mask_length_first.
Qed.

End CosineSchedule.

(** *** Exact arithmetic keeps the contract *)

Section ExactArithmetic.

Local Open Scope R_scope.

Lemma exact_contract : Schedule.FloatContract Exact.numpy.
Proof.
  pose proof PI2_1 as Hpi_low. pose proof PI_4 as Hpi_high.
  constructor; cbn.
  - intros x y z. apply Rle_trans.
  - intros a b _ Hab _. now apply IZR_le.
  - lra.
  - intros c x y Hc1 Hc2 Hxy. nra.
  - intros c _ _. ring.
  - intros x y s Hxy Hs _. unfold Rdiv.
    apply Rmult_le_compat_r; [| exact Hxy].
    left. apply Rinv_0_lt_compat. lra.
  - intros s Hs _. unfold Rdiv. ring.
  - intros c s Hc1 Hc2 Hs _. unfold Rdiv.
    rewrite Rmult_assoc, Rinv_r by lra. lra.
  - apply cos_0.
  - intros x y Hx Hxy Hy. apply cos_decr_1; lra.
  - intros x _ _. pose proof (COS_bound x). lra.
  - intros x y p Hx Hxy Hy Hp _. nra.
  - intros z _. ring.
  - intros z _. rewrite opp_IZR. lra.
  - intros x y Hxy. apply IZR_le. now apply round_half_even_mono.
  - intros z _. now rewrite round_half_even_IZR.
  - intros x y _ Hxy _. now apply floor_mono.
  - intros z _. apply floor_IZR.
Qed.

End ExactArithmetic.

(** ** Slices of a row-major buffer *)

Section ChunkFacts.

Lemma chunks_length (n m : nat) (l : list Q) :
  List.length (chunks n m l) = n.
Proof.
  revert l. induction n as [| n IH]; intros l; cbn [chunks List.length].
  - reflexivity.
  - now rewrite IH.
Qed.

(** Cutting a concatenation of pieces of one size gives the pieces back. *)
Lemma chunks_concat (m : nat) (ls : list (list Q)) :
  Forall (fun r => List.length r = m) ls ->
  chunks (List.length ls) m (List.concat ls) = ls.
Proof.
  induction 1 as [| r ls Hr _ IH]; cbn [List.length chunks List.concat].
  - reflexivity.
  - assert (Hhead : firstn m (r ++ List.concat ls) = r).
    { rewrite <- Hr, firstn_app, Nat.sub_diag, firstn_all.
      cbn [firstn]. apply app_nil_r. }
    assert (Htail : skipn m (r ++ List.concat ls) = List.concat ls).
    { rewrite <- Hr, skipn_app, Nat.sub_diag, skipn_all. reflexivity. }
    rewrite Hhead, Htail, IH. reflexivity.
Qed.

(** A buffer of [n * m] elements is cut into pieces of [m] elements. *)
Lemma chunks_sizes (n m : nat) (l : list Q) :
  List.length l = n * m ->
  Forall (fun r => List.length r = m) (chunks n m l).
Proof.
  revert l. induction n as [| n IH]; intros l Hl; cbn [chunks].
  - constructor.
  - constructor.
    + rewrite length_firstn. cbn in Hl. lia.
    + apply IH. rewrite length_skipn. cbn in Hl. lia.
Qed.

Lemma repeated_length {A : Type} (k : nat) (ls : list A) :
  List.length (flat_map (fun r => repeat r k) ls) = List.length ls * k.
Proof.
  induction ls as [| r ls IH]; cbn [flat_map List.length].
  - reflexivity.
  - rewrite length_app, repeat_length, IH. cbn. lia.
Qed.

Lemma repeated_sizes (k m : nat) (ls : list (list Q)) :
  Forall (fun r => List.length r = m) ls ->
  Forall (fun r => List.length r = m) (flat_map (fun r => repeat r k) ls).
Proof.
  induction 1 as [| r ls Hr _ IH]; cbn [flat_map].
  - constructor.
  - apply Forall_app. split; [| exact IH].
    apply Forall_forall. intros x Hx.
    apply repeat_spec in Hx. now subst x.
Qed.

Lemma map_repeated {A B : Type} (f : A -> B) (k : nat) (ls : list A) :
  map f (flat_map (fun r => repeat r k) ls)
  = flat_map (fun r => repeat r k) (map f ls).
Proof.
  induction ls as [| r ls IH]; cbn [flat_map map].
  - reflexivity.
  - rewrite map_app, IH. f_equal.
    clear. induction k as [| k IHk]; cbn [repeat map]; congruence.
Qed.

(** [repeat_interleave] on a tensor of rank at least one: the leading
    extent is multiplied by [k] and the slices are the old slices, each
    repeated [k] times in place. *)
Lemma repeat_interleave_slices (k n : nat) (rest : list nat) (t : tensor) :
  shape t = n :: rest ->
  well_formed t ->
  exists t' rows,
    repeat_interleave k t = ok t'
    /\ shape t' = n * k :: rest
    /\ unbind t = ok rows
    /\ List.length rows = n
    /\ unbind t' = ok (flat_map (fun r => repeat r k) rows).
Proof.
  intros Hs Hwf. unfold well_formed in Hwf. rewrite Hs in Hwf.
  cbn [numel fold_right] in Hwf. fold (numel rest) in Hwf.
  unfold repeat_interleave, unbind. rewrite Hs.
  eexists. eexists. split; [reflexivity |].
  cbn [shape data]. repeat split.
  - rewrite length_map. apply chunks_length.
  - f_equal. rewrite <- map_repeated. f_equal.
    pose proof (chunks_sizes n (numel rest) (data t) Hwf) as Hsz.
    pose proof (repeated_sizes k Hsz) as Hsz'.
    pose proof (chunks_concat Hsz') as Hc.
    rewrite repeated_length, chunks_length in Hc. exact Hc.
Qed.

End ChunkFacts.

(** ** Prompt assembly and encoding *)

Section PromptFacts.

Local Open Scope string_scope.

Lemma Qgtb_true (a b : Q) : Qgtb a b = true <-> (b < a)%Q.
Proof.
  unfold Qgtb. rewrite negb_true_iff.
  split; intros H.
  - apply Qnot_le_lt. intros Hle.
    apply Qle_bool_iff in Hle. congruence.
  - destruct (Qle_bool a b) eqn:E; [| reflexivity].
    apply Qle_bool_iff in E. exfalso. now apply (Qlt_not_le b a).
Qed.

Lemma Qgtb_false (a b : Q) : Qgtb a b = false <-> (a <= b)%Q.
Proof.
  unfold Qgtb. rewrite negb_false_iff. apply Qle_bool_iff.
Qed.

(** [encode_prompt] leaves the world alone; its value is the encoder's
    answer on the assembled list, each row then repeated. *)
Lemma encode_prompt_run (w : World) (prompt : PromptArg) (k : nat)
    (negative_prompt : option PromptArg) :
  encode_prompt prompt k negative_prompt w
  = (w,
     result_bind
       (encode_prompts (text_embed (transformer (self w)))
          (as_prompt_list prompt
           ++ (if Qgtb (guidance_scale (self w)) 1
               then select_or_pad negative_prompt (PStr "")
                      (List.length (as_prompt_list prompt))
               else []))%list)
       (repeat_interleave k)).
Proof.
  unfold encode_prompt, bind, get_self, lift, ok. cbn.
  destruct (encode_prompts _ _); reflexivity.
Qed.

Lemma select_or_pad_absent (n : nat) :
  select_or_pad None (PStr "") n = repeat "" n.
Proof. reflexivity. Qed.

Lemma select_or_pad_string (s : string) (n : nat) :
  select_or_pad (Some (PStr s)) (PStr "") n = repeat s n.
Proof.
  unfold select_or_pad, py_or, truthy.
  destruct (String.eqb s "") eqn:E; cbn [negb]; [| reflexivity].
  apply String.eqb_eq in E. now subst s.
Qed.

Lemma select_or_pad_empty_list (n : nat) :
  select_or_pad (Some (PList [])) (PStr "") n = repeat "" n.
Proof. reflexivity. Qed.

Lemma select_or_pad_list (s : string) (l : list string) (n : nat) :
  select_or_pad (Some (PList (s :: l))) (PStr "") n = s :: l.
Proof. reflexivity. Qed.

(** C5, as the code has it.  An absent or empty negative prompt becomes
    [len(prompt)] empty strings and a string becomes [len(prompt)] copies of
    itself; a non-empty list is taken as it is, whatever its length.  The
    negative prompts follow the positive ones in what is encoded exactly
    when [guidance_scale > 1]. *)
Theorem negative_prompt_selected_or_padded (w : World) (prompt : PromptArg)
    (k : nat) (negative_prompt : option PromptArg) :
  let positives := as_prompt_list prompt in
  let n := List.length positives in
  let negatives := select_or_pad negative_prompt (PStr "") n in
  let encoder := encode_prompts (text_embed (transformer (self w))) in
  (negative_prompt = None -> negatives = repeat "" n)
  /\ (forall s, negative_prompt = Some (PStr s) -> negatives = repeat s n)
  /\ (negative_prompt = Some (PList []) -> negatives = repeat "" n)
  /\ (forall s l, negative_prompt = Some (PList (s :: l)) -> negatives = s :: l)
  /\ ((1 < guidance_scale (self w))%Q ->
      encode_prompt prompt k negative_prompt w
      = (w, result_bind (encoder (positives ++ negatives)%list)
              (repeat_interleave k)))
  /\ ((guidance_scale (self w) <= 1)%Q ->
      encode_prompt prompt k negative_prompt w
      = (w, result_bind (encoder positives) (repeat_interleave k))).
Proof.
  intros positives n negatives encoder.
  repeat split.
  - intros ->. apply select_or_pad_absent.
  - intros s ->. apply select_or_pad_string.
  - intros ->. apply select_or_pad_empty_list.
  - intros s l ->. apply select_or_pad_list.
  - intros Hg. apply Qgtb_true in Hg.
    rewrite encode_prompt_run, Hg. reflexivity.
  - intros Hg. apply Qgtb_false in Hg.
    rewrite encode_prompt_run, Hg, app_nil_r. reflexivity.
Qed.

End PromptFacts.

Section PromptRows.

Local Open Scope string_scope.

Lemma py_len_shape (t : tensor) (n : nat) (rest : list nat) :
  shape t = n :: rest -> py_len t = ok n.
Proof. intros H. unfold py_len. now rewrite H. Qed.

Lemma select_or_pad_matching (negative_prompt : option PromptArg) (n : nat) :
  negative_prompt = None
  \/ (exists s, negative_prompt = Some (PStr s))
  \/ (exists l, negative_prompt = Some (PList l)
                /\ (l = [] \/ List.length l = n)) ->
  List.length (select_or_pad negative_prompt (PStr "") n) = n.
Proof.
  intros [-> | [[s ->] | [l [-> [-> | Hl]]]]].
  - rewrite select_or_pad_absent. apply repeat_length.
  - rewrite select_or_pad_string. apply repeat_length.
  - rewrite select_or_pad_empty_list. apply repeat_length.
  - destruct l as [| s l].
    + rewrite select_or_pad_empty_list. apply repeat_length.
    + rewrite select_or_pad_list. exact Hl.
Qed.

(** C2, as the code has it.  With [N] prompts and an encoder that answers
    one row per text, [encode_prompt] returns [N * K] rows when
    [guidance_scale <= 1] and [(N + M) * K] rows when [guidance_scale > 1],
    [M] being the length of the negative list: [M = N], hence [2 * N * K]
    rows, when the negative prompt is absent, a string, an empty list or a
    list of [N] texts.  The rows are those of the encoder, positive texts
    first, each repeated [K] times in place. *)
Theorem encode_prompt_row_count (w : World) (prompts : list string) (k : nat)
    (negative_prompt : option PromptArg) (c : tensor) (rest : list nat) :
  let g := guidance_scale (self w) in
  let n := List.length prompts in
  let negatives := select_or_pad negative_prompt (PStr "") n in
  let sent := (if Qgtb g 1 then prompts ++ negatives else prompts)%list in
  encode_prompts (text_embed (transformer (self w))) sent = ok c ->
  shape c = List.length sent :: rest ->
  well_formed c ->
  exists e rows,
    encode_prompt (PList prompts) k negative_prompt w = (w, ok e)
    /\ unbind c = ok rows
    /\ List.length rows = List.length sent
    /\ unbind e = ok (flat_map (fun r => repeat r k) rows)
    /\ py_len e = ok (List.length sent * k)
    /\ ((g <= 1)%Q -> List.length sent * k = n * k)
    /\ ((1 < g)%Q -> List.length sent * k = (n + List.length negatives) * k)
    /\ ((1 < g)%Q ->
        negative_prompt = None
        \/ (exists s, negative_prompt = Some (PStr s))
        \/ (exists l, negative_prompt = Some (PList l)
                      /\ (l = [] \/ List.length l = n)) ->
        List.length sent * k = 2 * n * k).
Proof.
  intros g n negatives sent Henc Hshape Hwf.
  destruct (repeat_interleave_slices k Hshape Hwf)
    as (e & rows & He & Hse & Hrows & Hlen & Hslices).
  exists e, rows.
  assert (Hsent : sent
                  = (prompts ++ (if Qgtb g 1 then negatives else []))%list).
  { unfold sent. destruct (Qgtb g 1); [reflexivity |].
    now rewrite app_nil_r. }
  repeat split; try assumption.
  - rewrite encode_prompt_run. cbn [as_prompt_list].
    fold g. fold n. fold negatives. rewrite <- Hsent, Henc.
    cbn [result_bind ok]. rewrite He. reflexivity.
  - apply (py_len_shape _ Hse).
  - intros Hg. apply Qgtb_false in Hg. unfold sent. now rewrite Hg.
  - intros Hg. apply Qgtb_true in Hg. unfold sent.
    now rewrite Hg, length_app.
  - intros Hg Hneg. apply Qgtb_true in Hg. unfold sent.
    rewrite Hg, length_app. unfold negatives.
    rewrite (select_or_pad_matching Hneg). fold n. lia.
Qed.

End PromptRows.

Section PromptExamples.

Local Open Scope string_scope.

Lemma encode_prompt_row_count_witness :
  exists e rows,
    encode_prompt (PList ["a"; "bb"]) 2 None guided = (guided, ok e)
    /\ unbind (Tensor [4; 1] [1; 2; 0; 0]%Q) = ok rows
    /\ List.length rows = 4
    /\ unbind e = ok (flat_map (fun r => repeat r 2) rows)
    /\ py_len e = ok 8.
Proof.
  destruct (@encode_prompt_row_count guided ["a"; "bb"] 2 None
              (Tensor [4; 1] [1; 2; 0; 0]%Q) [1]
              eq_refl eq_refl eq_refl)
    as (e & rows & H1 & H2 & H3 & H4 & H5 & _).
  exists e, rows. repeat split; assumption.
Defined.

(** C2 as stated fails: two prompts, one negative text in a list, guidance
    on and one image per prompt give three rows, not [2 * 2 * 1]. *)
Lemma encode_prompt_three_rows_for_two_prompts :
  encode_prompt (PList ["a"; "bb"]) 1 (Some (PList ["ccc"])) guided
  = (guided, ok (Tensor [3; 1] [1; 2; 3]%Q))
  /\ py_len (Tensor [3; 1] [1; 2; 3]%Q) <> ok (2 * 2 * 1).
Proof.
  split; [reflexivity | discriminate].
Qed.

(** C5 as stated fails: a negative list of one text stays a list of one
    text next to two prompts. *)
Lemma negative_list_keeps_its_length :
  select_or_pad (Some (PList ["ccc"])) (PStr "")
    (List.length (as_prompt_list (PList ["a"; "bb"]))) = ["ccc"]
  /\ List.length ["ccc"] <> List.length (as_prompt_list (PList ["a"; "bb"])).
Proof.
  split; [reflexivity | discriminate].
Qed.

Lemma negative_prompt_selected_or_padded_witness :
  encode_prompt (PList ["a"; "bb"]) 1 (Some (PStr "blurry")) guided
  = (guided,
     result_bind
       (encode_prompts example_text_embed ["a"; "bb"; "blurry"; "blurry"])
       (repeat_interleave 1)).
Proof.
  destruct (negative_prompt_selected_or_padded guided (PList ["a"; "bb"]) 1
              (Some (PStr "blurry")))
    as (_ & Hs & _ & _ & Hon & _).
  rewrite Hon by reflexivity.
  cbv zeta. rewrite (Hs "blurry" eq_refl). reflexivity.
Defined.

End PromptExamples.

(** ** Running the pipeline monad *)

Section MonadFacts.

Lemma bind_ok {A B : Type} {m : M A} (f : A -> M B) {w w' : World} {a : A} :
  m w = (w', ok a) -> bind m f w = f a w'.
Proof. intros H. unfold bind. now rewrite H. Qed.

Lemma bind_raise {A B : Type} {m : M A} (f : A -> M B) {w w' : World}
    {e : exn} :
  m w = (w', raise e) -> bind m f w = (w', raise e).
Proof. intros H. unfold bind. now rewrite H. Qed.

Lemma reads_only_ret {A : Type} (a : A) : reads_only (ret a).
Proof. intros w. reflexivity. Qed.

Lemma reads_only_lift {A : Type} (r : result A) : reads_only (lift r).
Proof. intros w. reflexivity. Qed.

Lemma reads_only_get_self : reads_only get_self.
Proof. intros w. reflexivity. Qed.

Lemma reads_only_bind {A B : Type} (m : M A) (f : A -> M B) :
  reads_only m -> (forall a, reads_only (f a)) -> reads_only (bind m f).
Proof.
  intros Hm Hf w. unfold bind.
  specialize (Hm w). destruct (m w) as [w' [e | a]]; cbn [fst] in *.
  - exact Hm.
  - rewrite Hf. exact Hm.
Qed.

Lemma reads_only_keeps_self {A : Type} (m : M A) :
  reads_only m -> keeps_self m.
Proof. intros H w. now rewrite H. Qed.

Lemma keeps_self_emit (evs : list Event) : keeps_self (emit evs).
Proof. intros w. reflexivity. Qed.

Lemma keeps_self_bind {A B : Type} (m : M A) (f : A -> M B) :
  keeps_self m -> (forall a, keeps_self (f a)) -> keeps_self (bind m f).
Proof.
  intros Hm Hf w. unfold bind.
  specialize (Hm w). destruct (m w) as [w' [e | a]]; cbn [fst] in *.
  - exact Hm.
  - rewrite Hf. exact Hm.
Qed.

Create HintDb frame.

#[local] Hint Resolve reads_only_ret reads_only_lift reads_only_get_self
  keeps_self_emit : frame.

Ltac frame :=
  repeat first
    [ apply reads_only_bind; [| intro]
    | apply keeps_self_bind; [| intro]
    | solve [auto with frame]
    | solve [apply reads_only_keeps_self; auto with frame] ].

Lemma reads_only_encode_prompt (prompt : PromptArg) (k : nat)
    (negative_prompt : option PromptArg) :
  reads_only (encode_prompt prompt k negative_prompt).
Proof. unfold encode_prompt. frame. Qed.

Lemma reads_only_encode_image (image : tensor) (k : nat)
    (generator : option Generator) :
  reads_only (encode_image image k generator).
Proof. unfold encode_image. frame. Qed.

Lemma reads_only_prepare_latents (image : option tensor) (k : nat)
    (generator : option Generator) :
  reads_only (prepare_latents image k generator).
Proof.
  unfold prepare_latents. destruct image as [image |]; [| frame].
  apply reads_only_bind; [apply reads_only_encode_image | intro; frame].
Qed.

Lemma reads_only_prepare_inputs {np : Schedule.Numpy} (a : CallArgs) : reads_only (prepare_inputs a).
Proof.
  unfold prepare_inputs.
  apply reads_only_bind; [frame | intro].
  apply reads_only_bind; [apply reads_only_encode_prompt | intro].
  apply reads_only_bind; [apply reads_only_prepare_latents | intro].
  frame.
Qed.

Lemma keeps_self_format_output (output_type : string) (x : tensor) :
  keeps_self (format_output output_type x).
Proof.
  unfold format_output.
  destruct (_ || _); [frame |].
  apply keeps_self_bind; [frame | intro].
  apply keeps_self_bind; [frame | intro output_name].
  destruct (_ && _); frame.
Qed.

End MonadFacts.

(** ** What [__call__] does to the pipeline object *)

Section CallFrame.

(** The first statement always succeeds and replaces one field. *)
Lemma set_guidance_scale_run (g : Q) (w : World) :
  set_guidance_scale g w = (fst (set_guidance_scale g w), ok tt).
Proof. reflexivity. Qed.

Lemma sample_world {np : Schedule.Numpy} (a : CallArgs) (w : World) :
  fst (sample a w) = fst (set_guidance_scale (arg_guidance_scale a) w).
Proof.
  unfold sample.
  rewrite (bind_ok _ (set_guidance_scale_run (arg_guidance_scale a) w)).
  set (w1 := fst (set_guidance_scale (arg_guidance_scale a) w)).
  assert (H : reads_only
                (bind (prepare_inputs a) (fun inputs =>
                 bind get_self (fun p =>
                 bind (lift (generate (transformer p) inputs)) (fun x =>
                 lift (postprocess (transformer p) x (vae p) inputs)))))).
  { apply reads_only_bind; [apply reads_only_prepare_inputs | intro].
    apply reads_only_bind; [apply reads_only_get_self | intro].
    apply reads_only_bind; [apply reads_only_lift | intro].
    apply reads_only_lift. }
  apply H.
Qed.

Lemma call_self {np : Schedule.Numpy} (a : CallArgs) (w : World) :
  self (fst (__call__ a w))
  = self (fst (set_guidance_scale (arg_guidance_scale a) w)).
Proof.
  unfold __call__, bind.
  pose proof (sample_world a w) as Hs.
  destruct (sample a w) as [w' [e | x]]; cbn [fst] in *.
  - now rewrite Hs.
  - rewrite keeps_self_format_output. now rewrite Hs.
Qed.

(** C8.  Whatever the arguments and whatever the outcome, after [__call__]
    the field [guidance_scale] holds the argument of that call and every
    other field of the pipeline object is what it was. *)
Theorem call_sets_guidance_scale_only {np : Schedule.Numpy} (a : CallArgs) (w : World) :
  let before := self w in
  let after := self (fst (__call__ a w)) in
  guidance_scale after = arg_guidance_scale a
  /\ vae after = vae before
  /\ text_encoder after = text_encoder before
  /\ tokenizer after = tokenizer before
  /\ transformer after = transformer before
  /\ scheduler after = scheduler before
  /\ tokenizer_max_length after = tokenizer_max_length before
  /\ device after = device before
  /\ dtype after = dtype before
  /\ init_annotations after = init_annotations before
  /\ config after = config before.
Proof.
  cbv zeta. rewrite call_self. repeat split.
Qed.

End CallFrame.

(** ** What [__call__] hands to the transformer *)

Section CallInputs.

Local Open Scope string_scope.

(** [encode_prompt] is called with exactly its three keyword arguments. *)
Lemma prompt_kwargs_selected :
  prompt_kwargs = ["prompt"; "negative_prompt"; "num_images_per_prompt"].
Proof. reflexivity. Qed.

Lemma flat_map_repeat_once {A : Type} (l : list A) :
  flat_map (fun r => repeat r 1) l = l.
Proof. induction l as [| x l IH]; simpl; [reflexivity | f_equal; exact IH]. Qed.

Lemma prepare_inputs_run {np : Schedule.Numpy} (a : CallArgs) (w : World) (e : tensor)
    (latents : list tensor) (n : nat) :
  encode_prompt (arg_prompt a) (arg_num_images_per_prompt a)
    (arg_negative_prompt a) w = (w, ok e) ->
  prepare_latents (arg_image a) (arg_num_images_per_prompt a)
    (arg_generator a) w = (w, ok latents) ->
  py_len e = ok n ->
  prepare_inputs a w = (w, ok (assemble_inputs a (self w) e latents n)).
Proof.
  intros He Hl Hn. unfold prepare_inputs.
  rewrite (bind_ok (w := w) (w' := w) (a := self w) _ eq_refl).
  rewrite (bind_ok _ He), (bind_ok _ Hl).
  unfold bind, lift. rewrite Hn. reflexivity.
Qed.

Lemma sample_run {np : Schedule.Numpy} (a : CallArgs) (w : World) (inputs : Inputs) :
  let w1 := fst (set_guidance_scale (arg_guidance_scale a) w) in
  prepare_inputs a w1 = (w1, ok inputs) ->
  sample a w
  = (w1,
     result_bind (generate (transformer (self w)) inputs)
       (fun x => postprocess (transformer (self w)) x (vae (self w)) inputs)).
Proof.
  intros w1 Hin. unfold sample.
  rewrite (bind_ok _ (set_guidance_scale_run (arg_guidance_scale a) w)).
  fold w1. rewrite (bind_ok _ Hin).
  unfold bind, get_self, lift. cbn.
  destruct (generate _ _); reflexivity.
Qed.

(** C7.  For [prompt = ["a cat", "a dog"]] and [guidance_scale = 5], the
    other arguments at their defaults, the text encoder is asked for the two
    prompts followed by two empty negative prompts; the transformer receives
    that batch of four rows, [batch_size = 4 // 2 = 2] and a [motion_flow]
    list of two entries. *)
Theorem two_prompts_with_guidance {np : Schedule.Numpy} (w : World) (a : CallArgs) (c : tensor)
    (rest : list nat) :
  arg_prompt a = PList ["a cat"; "a dog"] ->
  arg_guidance_scale a = 5%Q ->
  arg_num_images_per_prompt a = 1 ->
  arg_negative_prompt a = None ->
  arg_image a = None ->
  encode_prompts (text_embed (transformer (self w)))
    ["a cat"; "a dog"; ""; ""] = ok c ->
  shape c = 4 :: rest ->
  well_formed c ->
  exists inputs,
    sample a w
    = (fst (set_guidance_scale 5%Q w),
       result_bind (generate (transformer (self w)) inputs)
         (fun x => postprocess (transformer (self w)) x (vae (self w)) inputs))
    /\ py_len (in_prompt inputs) = ok 4
    /\ unbind (in_prompt inputs) = unbind c
    /\ in_batch_size inputs = 2
    /\ in_motion_flow inputs = [arg_motion_flow a; arg_motion_flow a]
    /\ List.length (in_motion_flow inputs) = 2.
Proof.
  intros Hp Hg Hk Hn Hi Henc Hshape Hwf.
  destruct (repeat_interleave_slices 1 Hshape Hwf)
    as (e & rows & He & Hse & Hrows & Hlen & Hslices).
  rewrite flat_map_repeat_once in Hslices.
  set (w1 := fst (set_guidance_scale 5%Q w)).
  assert (Henc1 : encode_prompt (arg_prompt a) (arg_num_images_per_prompt a)
                    (arg_negative_prompt a) w1 = (w1, ok e)).
  { rewrite encode_prompt_run, Hp, Hk, Hn. cbn.
    rewrite Henc. cbn. rewrite He. reflexivity. }
  assert (Hlat : prepare_latents (arg_image a) (arg_num_images_per_prompt a)
                   (arg_generator a) w1 = (w1, ok [])).
  { rewrite Hi. reflexivity. }
  pose proof (prepare_inputs_run a Henc1 Hlat (py_len_shape _ Hse)) as Hin.
  exists (assemble_inputs a (self w1) e [] (4 * 1)).
  split.
  - pose proof (@sample_run np a w) as Hrun. cbv zeta in Hrun.
    rewrite Hg in Hrun. apply Hrun. exact Hin.
  - unfold assemble_inputs. cbn [in_prompt in_batch_size in_motion_flow].
    rewrite Hg. cbn.
    repeat split; try reflexivity.
    + apply (py_len_shape _ Hse).
    + now rewrite Hslices, Hrows.
Qed.

Lemma two_prompts_with_guidance_witness :
  exists inputs,
    sample (np := Binary64.numpy)
      (example_args (PList ["a cat"; "a dog"]) 5%Q None "pil") guided
    = (fst (set_guidance_scale 5%Q guided),
       result_bind (generate (transformer (self guided)) inputs)
         (fun x => postprocess (transformer (self guided)) x
                     (vae (self guided)) inputs))
    /\ py_len (in_prompt inputs) = ok 4
    /\ unbind (in_prompt inputs) = unbind (Tensor [4; 1] [5; 5; 0; 0]%Q)
    /\ in_batch_size inputs = 2
    /\ in_motion_flow inputs = [5%Q; 5%Q]
    /\ List.length (in_motion_flow inputs) = 2.
Proof.
  apply (@two_prompts_with_guidance Binary64.numpy guided
           (example_args (PList ["a cat"; "a dog"]) 5%Q None "pil")
           (Tensor [4; 1] [5; 5; 0; 0]%Q) [1]); reflexivity.
Defined.

End CallInputs.

(** ** Shaping the result *)

Section OutputFacts.

Local Open Scope string_scope.

Lemma call_after_sample {np : Schedule.Numpy} (a : CallArgs) (w w' : World) (x : tensor) :
  sample a w = (w', ok x) ->
  __call__ a w = format_output (arg_output_type a) x w'.
Proof. intros H. unfold __call__. apply (bind_ok _ H). Qed.

Lemma raw_requested (t : string) :
  t = "latent" \/ t = "pt" <->
  String.eqb t "latent" || String.eqb t "pt" = true.
Proof.
  rewrite orb_true_iff, !String.eqb_eq. reflexivity.
Qed.

Lemma raw_not_requested (t : string) :
  t <> "latent" -> t <> "pt" ->
  String.eqb t "latent" || String.eqb t "pt" = false.
Proof.
  intros H1 H2. apply orb_false_iff.
  split; apply String.eqb_neq; assumption.
Qed.

Lemma format_output_raw (t : string) (x : tensor) (w : World) :
  t = "latent" \/ t = "pt" ->
  format_output t x w = (w, ok (RawTensor x)).
Proof.
  intros H. apply raw_requested in H.
  unfold format_output. rewrite H. reflexivity.
Qed.

Lemma format_output_frames (t : string) (x : tensor) (w : World) :
  t <> "latent" -> t <> "pt" -> rank x = 5 ->
  format_output t x w
  = (on_host w,
     ok (Output {| images := None; frames := Some (NumpyArray x) |})).
Proof.
  intros H1 H2 Hr. unfold format_output.
  rewrite (raw_not_requested H1 H2).
  unfold bind, emit, lift, ret. cbn. rewrite Hr. cbn.
  rewrite andb_false_r. reflexivity.
Qed.

Lemma format_output_images_array (t : string) (x : tensor) (w : World) :
  t <> "latent" -> t <> "pt" -> t <> "pil" -> rank x = 4 ->
  format_output t x w
  = (on_host w,
     ok (Output {| images := Some (NumpyArray x); frames := None |})).
Proof.
  intros H1 H2 H3 Hr. unfold format_output.
  rewrite (raw_not_requested H1 H2).
  unfold bind, emit, lift, ret. cbn. rewrite Hr. cbn.
  apply String.eqb_neq in H3. rewrite H3. reflexivity.
Qed.

Lemma format_output_images_pil (x : tensor) (w : World) :
  rank x = 4 ->
  exists slices,
    unbind x = ok slices
    /\ List.length slices = hd 0 (shape x)
    /\ format_output "pil" x w
       = ({| self := self w;
             trace := (trace w ++ [CpuNumpy]) ++ map FromArray slices |},
          ok (Output
                {| images :=
                     Some (PILImages
                             (map (fun image => {| pixels := image |}) slices));
                   frames := None |})).
Proof.
  intros Hr. unfold rank in Hr.
  destruct (shape x) as [| n rest] eqn:Hs; [discriminate |].
  exists (map (Tensor rest) (chunks n (numel rest) (data x))).
  split; [| split].
  - unfold unbind. now rewrite Hs.
  - rewrite length_map. apply chunks_length.
  - unfold format_output. cbn [String.eqb orb].
    unfold bind, emit, lift, ret, unbind, rank. rewrite Hs, Hr. reflexivity.
Qed.

Lemma table_get_unknown (r : nat) :
  r <> 4 -> r <> 5 -> table_get output_names r = raise (KeyErrorInt r).
Proof.
  intros H4 H5. unfold output_names. cbn [table_get].
  destruct (Nat.eqb_spec 4 r) as [E | _]; [congruence |].
  destruct (Nat.eqb_spec 5 r) as [E | _]; [congruence |].
  reflexivity.
Qed.

Lemma format_output_unknown_rank (t : string) (x : tensor) (w : World) :
  t <> "latent" -> t <> "pt" -> rank x <> 4 -> rank x <> 5 ->
  format_output t x w = (on_host w, raise (KeyErrorInt (rank x))).
Proof.
  intros H1 H2 H4 H5. unfold format_output.
  rewrite (raw_not_requested H1 H2).
  rewrite (table_get_unknown H4 H5). reflexivity.
Qed.

End OutputFacts.

Section OutputClaims.

Local Open Scope string_scope.

(** C4.  When the generation phase has produced [x]: with [output_type]
    ["latent"] or ["pt"] the call returns [x] itself and nothing is brought
    to host memory or made into an image; otherwise [x] goes to host memory,
    a rank-4 [x] is returned under [images] and a rank-5 [x] under [frames],
    and PIL images are made exactly when [output_type] is ["pil"] and the
    tag is [images]. *)
Theorem output_is_tagged_by_rank {np : Schedule.Numpy} (a : CallArgs) (w w' : World) (x : tensor) :
  sample a w = (w', ok x) ->
  let t := arg_output_type a in
  (t = "latent" \/ t = "pt" -> __call__ a w = (w', ok (RawTensor x)))
  /\ (t = "pil" -> rank x = 4 ->
      exists slices,
        unbind x = ok slices
        /\ __call__ a w
           = ({| self := self w';
                 trace := (trace w' ++ [CpuNumpy]) ++ map FromArray slices |},
              ok (Output
                    {| images :=
                         Some (PILImages
                                 (map (fun image => {| pixels := image |})
                                    slices));
                       frames := None |})))
  /\ (t <> "latent" -> t <> "pt" -> t <> "pil" -> rank x = 4 ->
      __call__ a w
      = (on_host w',
         ok (Output {| images := Some (NumpyArray x); frames := None |})))
  /\ (t <> "latent" -> t <> "pt" -> rank x = 5 ->
      __call__ a w
      = (on_host w',
         ok (Output {| images := None; frames := Some (NumpyArray x) |}))).
Proof.
  intros Hs t. rewrite (@call_after_sample _ _ _ _ _ Hs). fold t.
  repeat split.
  - apply format_output_raw.
  - intros Ht Hr. rewrite Ht.
    destruct (@format_output_images_pil x w' Hr) as (slices & Hu & _ & Hf).
    exists slices. split; assumption.
  - apply format_output_images_array.
  - apply format_output_frames.
Qed.

Lemma output_is_tagged_by_rank_witness :
  __call__ (np := Binary64.numpy)
      (example_args (PStr "a red ball") 5%Q None "latent") guided
  = (fst (set_guidance_scale 5%Q guided),
     ok (RawTensor (Tensor [1; 1; 1; 3] [0; 0; 0]%Q))).
Proof.
  apply (@output_is_tagged_by_rank Binary64.numpy
           (example_args (PStr "a red ball") 5%Q None "latent") guided
           (fst (set_guidance_scale 5%Q guided))
           (Tensor [1; 1; 1; 3] [0; 0; 0]%Q) eq_refl).
  left. reflexivity.
Defined.

(** C9.  When [output_type] is neither ["latent"] nor ["pt"] and the
    post-processed tensor has a rank other than 4 and 5, the subscript of
    the rank table fails: the call raises [KeyError] and returns nothing. *)
Theorem unknown_rank_raises_key_error {np : Schedule.Numpy} (a : CallArgs) (w w' : World)
    (x : tensor) :
  sample a w = (w', ok x) ->
  arg_output_type a <> "latent" ->
  arg_output_type a <> "pt" ->
  rank x <> 4 ->
  rank x <> 5 ->
  __call__ a w = (on_host w', raise (KeyErrorInt (rank x))).
Proof.
  intros Hs H1 H2 H4 H5. rewrite (@call_after_sample _ _ _ _ _ Hs).
  now apply format_output_unknown_rank.
Qed.

Lemma unknown_rank_raises_key_error_witness :
  __call__ (np := Binary64.numpy)
      (example_args (PStr "a red ball") 5%Q None "np")
    (example_world [2; 3])
  = (on_host (fst (set_guidance_scale 5%Q (example_world [2; 3]))),
     raise (KeyErrorInt 2)).
Proof.
  apply (@unknown_rank_raises_key_error Binary64.numpy
           (example_args (PStr "a red ball") 5%Q None "np")
           (example_world [2; 3])
           (fst (set_guidance_scale 5%Q (example_world [2; 3])))
           (Tensor [2; 3] (repeat 0%Q 6)) eq_refl);
    discriminate.
Defined.

(** C10.  With [output_type = "pil"] and a rank-5 tensor the result is
    tagged [frames] and holds the numpy array; the only conversion traced
    is the move to host memory, no PIL image is made. *)
Theorem pil_request_on_frames_keeps_array {np : Schedule.Numpy} (a : CallArgs) (w w' : World)
    (x : tensor) :
  sample a w = (w', ok x) ->
  arg_output_type a = "pil" ->
  rank x = 5 ->
  __call__ a w
  = ({| self := self w'; trace := trace w' ++ [CpuNumpy] |},
     ok (Output {| images := None; frames := Some (NumpyArray x) |}))
  /\ forall image, In (FromArray image) (trace (fst (__call__ a w))) ->
                   In (FromArray image) (trace w').
Proof.
  intros Hs Ht Hr. rewrite (@call_after_sample _ _ _ _ _ Hs), Ht.
  rewrite format_output_frames by (discriminate || exact Hr).
  split; [reflexivity |].
  intros image Hin. cbn [fst on_host trace] in Hin.
  apply in_app_or in Hin. destruct Hin as [Hin | [Hin | []]].
  - exact Hin.
  - discriminate.
Qed.

Lemma pil_request_on_frames_keeps_array_witness :
  __call__ (np := Binary64.numpy)
      (example_args (PStr "a red ball") 5%Q None "pil")
    (example_world [1; 2; 1; 1; 3])
  = ({| self := self (fst (set_guidance_scale 5%Q
                             (example_world [1; 2; 1; 1; 3])));
        trace := [CpuNumpy] |},
     ok (Output {| images := None;
                   frames := Some (NumpyArray
                                     (Tensor [1; 2; 1; 1; 3]
                                        (repeat 0%Q 6))) |})).
Proof.
  apply (@pil_request_on_frames_keeps_array Binary64.numpy
           (example_args (PStr "a red ball") 5%Q None "pil")
           (example_world [1; 2; 1; 1; 3])
           (fst (set_guidance_scale 5%Q (example_world [1; 2; 1; 1; 3])))
           (Tensor [1; 2; 1; 1; 3] (repeat 0%Q 6))
           eq_refl eq_refl eq_refl).
Defined.

End OutputClaims.

(** ** Seed images *)

Section ImageFacts.

Lemma flat_map_seq_length {A : Type} (f : nat -> list A) (m n a : nat) :
  (forall i, a <= i < a + n -> List.length (f i) = m) ->
  List.length (flat_map f (seq a n)) = n * m.
Proof.
  revert a. induction n as [| n IH]; intros a Hf; cbn [seq flat_map].
  - reflexivity.
  - rewrite length_app, (Hf a) by lia.
    rewrite (IH (S a)) by (intros i Hi; apply Hf; lia).
    cbn. lia.
Qed.

(** Reading a concatenation of equally long pieces by piece and offset. *)
Lemma nth_flat_map_seq {A : Type} (f : nat -> list A) (d : A)
    (m n a i j : nat) :
  (forall i, a <= i < a + n -> List.length (f i) = m) ->
  i < n -> j < m ->
  nth (i * m + j) (flat_map f (seq a n)) d = nth j (f (a + i)) d.
Proof.
  revert a i. induction n as [| n IH]; intros a i Hf Hi Hj; [lia |].
  cbn [seq flat_map].
  destruct i as [| i].
  - rewrite app_nth1 by (rewrite (Hf a); lia).
    now rewrite Nat.add_0_r.
  - rewrite app_nth2 by (rewrite (Hf a); lia).
    rewrite (Hf a) by lia.
    replace (S i * m + j - m) with (i * m + j) by (cbn; lia).
    rewrite (IH (S a) i) by (try lia; intros i' Hi'; apply Hf; lia).
    f_equal. f_equal. lia.
Qed.

Lemma flat_index_bound (i j n m : nat) :
  i < n -> j < m -> i * m + j < n * m.
Proof.
  intros Hi Hj. apply Nat.lt_le_trans with (S i * m).
  - cbn. lia.
  - apply Nat.mul_le_mono_r. lia.
Qed.

Lemma normalize_data (x : tensor) :
  data (normalize x) = map normalize_value (data x).
Proof. unfold normalize, div_, sub. cbn [data]. now rewrite map_map. Qed.

Lemma normalize_shape (x : tensor) : shape (normalize x) = shape x.
Proof. reflexivity. Qed.

Lemma normalize_value_range (v : Q) :
  (0 <= v <= 255)%Q -> (-1 <= normalize_value v <= 1)%Q.
Proof.
  intros [H0 H1]. unfold normalize_value.
  assert (Hpos : (0 < 255 # 2)%Q) by reflexivity.
  split.
  - apply Qle_shift_div_l; [exact Hpos |]. Lqa.lra.
  - apply Qle_shift_div_r; [exact Hpos |]. Lqa.lra.
Qed.

Lemma normalize_value_ends :
  (normalize_value 0 == -1)%Q /\ (normalize_value 255 == 1)%Q.
Proof. split; reflexivity. Qed.

(** [permute(2, 0, 1)] on a rank-3 tensor: the new shape and the element
    at every index. *)
Lemma permute_2_0_1_items (t : tensor) (h w c : nat) :
  shape t = [h; w; c] ->
  exists t',
    permute_2_0_1 t = ok t'
    /\ shape t' = [c; h; w]
    /\ well_formed t'
    /\ forall ci hi wi, ci < c -> hi < h -> wi < w ->
         item3 t' ci hi wi = item3 t hi wi ci.
Proof.
  intros Hs. unfold permute_2_0_1. rewrite Hs.
  eexists. split; [reflexivity |].
  set (row := fun ci hi =>
                map (fun wi => nth ((hi * w + wi) * c + ci) (data t) 0%Q)
                    (seq 0 w)).
  set (plane := fun ci => flat_map (row ci) (seq 0 h)).
  assert (Hrow : forall ci hi, List.length (row ci hi) = w).
  { intros ci hi. unfold row. now rewrite length_map, length_seq. }
  assert (Hplane : forall ci, List.length (plane ci) = h * w).
  { intros ci. unfold plane. apply flat_map_seq_length.
    intros i _. apply Hrow. }
  split; [reflexivity |]. split.
  - unfold well_formed. cbn [shape data numel fold_right].
    rewrite (flat_map_seq_length plane (m := h * w)) by (intros; apply Hplane).
    lia.
  - intros ci hi wi Hc Hh Hw.
    unfold item3 at 1. cbn [shape data].
    replace ((ci * h + hi) * w + wi) with (ci * (h * w) + (hi * w + wi))
      by ring.
    assert (Hin : hi * w + wi < h * w) by now apply flat_index_bound.
    rewrite (nth_flat_map_seq plane 0%Q (m := h * w) (a := 0))
      by (try assumption; intros; apply Hplane).
    cbn [Nat.add]. unfold plane.
    rewrite (nth_flat_map_seq (row ci) 0%Q (m := w) (a := 0))
      by (try assumption; intros; apply Hrow).
    cbn [Nat.add]. unfold row.
    rewrite (nth_indep _ 0%Q
               (nth ((hi * w + 0) * c + ci) (data t) 0%Q))
      by (rewrite length_map, length_seq; exact Hw).
    rewrite (map_nth (fun wi => nth ((hi * w + wi) * c + ci) (data t) 0%Q)
               (seq 0 w) 0 wi).
    rewrite seq_nth by exact Hw. cbn [Nat.add].
    unfold item3. now rewrite Hs.
Qed.

Lemma item3_normalize (t : tensor) (h w c hi wi ci : nat) :
  shape t = [h; w; c] ->
  well_formed t ->
  hi < h -> wi < w -> ci < c ->
  item3 (normalize t) hi wi ci = normalize_value (item3 t hi wi ci)
  /\ In (item3 t hi wi ci) (data t).
Proof.
  intros Hs Hwf Hh Hw Hc. unfold item3.
  rewrite normalize_shape, Hs, normalize_data.
  unfold well_formed in Hwf. rewrite Hs in Hwf. cbn [numel fold_right] in Hwf.
  assert (Hin : (hi * w + wi) * c + ci < List.length (data t)).
  { rewrite Hwf, Nat.mul_1_r, Nat.mul_assoc.
    apply flat_index_bound; [apply flat_index_bound |]; assumption. }
  split.
  - rewrite (nth_indep _ 0%Q (normalize_value 0%Q))
      by (now rewrite length_map).
    apply map_nth.
  - apply nth_In. exact Hin.
Qed.

Lemma chunks_repeat (k m : nat) (d : list Q) :
  List.length d = m -> chunks k m (List.concat (repeat d k)) = repeat d k.
Proof.
  intros Hd.
  assert (H : Forall (fun r => List.length r = m) (repeat d k)).
  { apply Forall_forall. intros r Hr. apply repeat_spec in Hr. now subst r. }
  pose proof (chunks_concat H) as Hc.
  now rewrite repeat_length in Hc.
Qed.

(** [expand(k, -1, -1, -1)] on a batch of one: [k] rows, each the one row. *)
Lemma expand4_rows (k c h w : nat) (y : tensor) :
  shape y = [1; c; h; w] ->
  well_formed y ->
  exists y',
    expand4 k y = ok y'
    /\ shape y' = [k; c; h; w]
    /\ unbind y' = ok (repeat (Tensor [c; h; w] (data y)) k).
Proof.
  intros Hs Hwf. unfold expand4. rewrite Hs. cbn [Nat.eqb].
  eexists. split; [reflexivity |]. split; [reflexivity |].
  unfold unbind. cbn [shape data]. f_equal.
  unfold well_formed in Hwf. rewrite Hs in Hwf.
  rewrite chunks_repeat.
  - apply map_repeat.
  - rewrite Hwf. cbn [numel fold_right]. lia.
Qed.

End ImageFacts.

Section ImageClaims.

(** C6.  For an image of shape [(H, W, C)] with values in [[0, 255]]:
    every value is sent to [(v - 127.5) / 127.5], which lies in [[-1, 1]]
    (0 to -1, 255 to 1); the tensor is permuted to [(C, H, W)] and given a
    leading batch dimension; the VAE encodes and samples it and then scales
    it; a latent of batch one is broadcast to [num_images_per_prompt] rows.
    [prepare_latents] returns the empty list without an image and the
    one-element list of that latent with one. *)
Theorem encode_image_normalizes_and_broadcasts (w : World) (image : tensor)
    (h wd c k : nat) (generator : option Generator) (x z y : tensor)
    (cz hz wz : nat) :
  shape image = [h; wd; c] ->
  well_formed image ->
  (forall v, In v (data image) -> (0 <= v <= 255)%Q) ->
  permute_2_0_1 (normalize image) = ok x ->
  encode_sample (vae (self w)) generator (unsqueeze_0 x) = ok z ->
  scale_ (vae (self w)) z = ok y ->
  shape y = [1; cz; hz; wz] ->
  well_formed y ->
  (normalize_value 0 == -1)%Q
  /\ (normalize_value 255 == 1)%Q
  /\ shape (unsqueeze_0 x) = [1; c; h; wd]
  /\ (forall ci hi wi, ci < c -> hi < h -> wi < wd ->
        item3 x ci hi wi = normalize_value (item3 image hi wi ci)
        /\ (-1 <= item3 x ci hi wi <= 1)%Q)
  /\ exists latent,
       encode_image image k generator w = (w, ok latent)
       /\ shape latent = [k; cz; hz; wz]
       /\ unbind latent = ok (repeat (Tensor [cz; hz; wz] (data y)) k)
       /\ prepare_latents (Some image) k generator w = (w, ok [latent])
       /\ prepare_latents None k generator w = (w, ok []).
Proof.
  intros Hs Hwf Hrange Hperm Hz Hy Hys Hywf.
  destruct (@permute_2_0_1_items (normalize image) h wd c Hs)
    as (x' & Hx' & Hxs & _ & Hitems).
  rewrite Hperm in Hx'. injection Hx' as <-.
  destruct (expand4_rows k Hys Hywf) as (latent & Hexp & Hls & Hrows).
  split; [apply normalize_value_ends |].
  split; [apply normalize_value_ends |].
  split; [unfold unsqueeze_0; cbn [shape]; now rewrite Hxs |].
  split.
  - intros ci hi wi Hc Hh Hw.
    rewrite (Hitems ci hi wi Hc Hh Hw).
    destruct (item3_normalize Hs Hwf Hh Hw Hc) as [Hval Hin].
    rewrite Hval. split; [reflexivity |].
    apply normalize_value_range, Hrange, Hin.
  - exists latent.
    assert (Henc : encode_image image k generator w = (w, ok latent)).
    { unfold encode_image, bind, get_self, lift. cbn.
      rewrite Hperm. cbn. rewrite Hz. cbn. rewrite Hy. cbn.
      now rewrite Hexp. }
    repeat split; try assumption.
    unfold prepare_latents. rewrite (bind_ok _ Henc). reflexivity.
Qed.

Lemma encode_image_normalizes_and_broadcasts_witness :
  exists latent,
    encode_image (Tensor [1; 2; 3] [0; 255; 128; 255; 0; 64]%Q) 2 None guided
    = (guided, ok latent)
    /\ shape latent = [2; 3; 1; 2]
    /\ unbind latent
       = ok (repeat
               (Tensor [3; 1; 2]
                  (data (normalize
                           (Tensor [3; 1; 2] [0; 255; 255; 0; 128; 64]%Q))))
               2).
Proof.
  destruct (@encode_image_normalizes_and_broadcasts guided
              (Tensor [1; 2; 3] [0; 255; 128; 255; 0; 64]%Q) 1 2 3 2 None
              (normalize (Tensor [3; 1; 2] [0; 255; 255; 0; 128; 64]%Q))
              (unsqueeze_0
                 (normalize (Tensor [3; 1; 2] [0; 255; 255; 0; 128; 64]%Q)))
              (unsqueeze_0
                 (normalize (Tensor [3; 1; 2] [0; 255; 255; 0; 128; 64]%Q)))
              3 1 2 eq_refl eq_refl)
    as (_ & _ & _ & _ & latent & H1 & H2 & H3 & _).
  - intros v Hv. cbn in Hv.
    repeat (destruct Hv as [<- | Hv]; [split; discriminate |]).
    destruct Hv.
  - reflexivity.
  - reflexivity.
  - reflexivity.
  - reflexivity.
  - reflexivity.
  - exists latent. repeat split; assumption.
Defined.

End ImageClaims.

(** ** Registering collaborators *)

Section RegistrationFacts.

Local Open Scope string_scope.

Lemma dict_get_set {V : Type} (d : list (string * V)) (k : string) (v : V) :
  dict_get (dict_set d k v) k = Some v.
Proof.
  induction d as [| [k' v'] d IH]; cbn [dict_set dict_get].
  - now rewrite String.eqb_refl.
  - destruct (String.eqb k' k) eqn:E; cbn [dict_get].
    + now rewrite String.eqb_refl.
    + now rewrite E.
Qed.

(** An object handed in is returned as it is. *)
Lemma register_module_object (o : PyObject) (name : string) (w : World) :
  snd (register_module (AsObject o) name w) = ok o.
Proof. reflexivity. Qed.

(** [None], the default of every collaborator, is recorded as [NoneType]. *)
Lemma register_module_none (name : string) (w : World) :
  register_module (AsObject NoneObject) name w
  = (fst (register_to_config name "NoneType" w), ok NoneObject).
Proof. reflexivity. Qed.

(** Whenever [register_module] returns, the class name of what it returns
    is in the configuration under the module name. *)
Lemma register_module_records_class (model_or_path : ModelOrPath)
    (name : string) (w w' : World) (model : PyObject) :
  register_module model_or_path name w = (w', ok model) ->
  dict_get (config (self w')) name = Some (class_name model).
Proof.
  unfold register_module, bind, get_self, ret, lift, register_to_config,
    put_self. cbn.
  destruct model_or_path as [path | o]; cbn.
  - destruct (dict_get (init_annotations (self w)) name) as [cls |]; cbn;
      [| discriminate].
    destruct (from_pretrained cls) as [load |]; cbn.
    + destruct (negb (String.eqb path "")); cbn.
      * destruct (load path (dtype (self w))) as [e | loaded]; cbn;
          [discriminate |].
        destruct (cls_call cls) as [e | m]; cbn; [discriminate |].
        intros H. injection H as <- <-. cbn. apply dict_get_set.
      * destruct (cls_call cls) as [e | m]; cbn; [discriminate |].
        intros H. injection H as <- <-. cbn. apply dict_get_set.
    + destruct (cls_call cls) as [e | m]; cbn; [discriminate |].
      intros H. injection H as <- <-. cbn. apply dict_get_set.
  - intros H. injection H as <- <-. cbn. apply dict_get_set.
Qed.

(** Given a path, a class that loads and a load that succeeds, the value
    returned is still the outcome of [cls()]: line 215 runs after the
    branch of line 212, not instead of it. *)
Lemma register_module_path_is_cls_call (path name : string) (w : World)
    (cls : PyClass) (load : string -> DType -> result PyObject)
    (loaded : PyObject) :
  dict_get (init_annotations (self w)) name = Some cls ->
  from_pretrained cls = Some load ->
  load path (dtype (self w)) = ok loaded ->
  snd (register_module (AsPath path) name w) = cls_call cls.
Proof.
  intros Hcls Hload Hok.
  unfold register_module, bind, get_self, ret, lift, register_to_config,
    put_self. cbn.
  rewrite Hcls. cbn. rewrite Hload.
  destruct (negb (String.eqb path "")); cbn.
  - rewrite Hok. cbn. destruct (cls_call cls); reflexivity.
  - destruct (cls_call cls); reflexivity.
Qed.

(** C3 on the code.  With [vae] annotated by a class that has
    [from_pretrained], [register_module("checkpoints/vae", "vae")] returns
    the bare instance [cls()], never moved to a device, and records its
    class name; the object loaded from the checkpoint is dropped.  With the
    annotations [NOVAPipeline.__init__] really has (none), the same call
    raises [KeyError] before anything is loaded. *)
Theorem register_module_returns_bare_instance :
  let annotated :=
    {| self := example_pipeline 5%Q [1; 1; 1; 3]
                 [("vae", example_class "AutoencoderKL")];
       trace := [] |} in
  snd (register_module (AsPath "checkpoints/vae") "vae" annotated)
  = ok {| class_name := "AutoencoderKL"; is_nn_module := true;
          origin := Constructed; placed_on := None |}
  /\ config (self (fst (register_module (AsPath "checkpoints/vae") "vae"
                          annotated)))
     = [("vae", "AutoencoderKL")]
  /\ init_annotations (self guided) = NOVAPipeline_init_annotations
  /\ snd (register_module (AsPath "checkpoints/vae") "vae" guided)
     = raise (KeyError "vae").
Proof. repeat split. Qed.

End RegistrationFacts.

(* ===================================================================== *)
(** * Further properties of the same code                                 *)
(* ===================================================================== *)

(** ** [register_module] and the registrations of [__init__] *)

Section RegistrationMore.

Local Open Scope string_scope.

Lemma dict_get_set_other {V : Type} (d : list (string * V)) (k k' : string)
    (v : V) :
  k' <> k -> dict_get (dict_set d k v) k' = dict_get d k'.
Proof.
  intros Hne. induction d as [| [k0 v0] d IH]; cbn [dict_set dict_get].
  - destruct (String.eqb_spec k k'); [congruence | reflexivity].
  - destruct (String.eqb_spec k0 k) as [-> | Hk0]; cbn [dict_get].
    + destruct (String.eqb_spec k k'); [congruence | reflexivity].
    + destruct (String.eqb_spec k0 k'); [reflexivity | exact IH].
Qed.

(** The two ways [register_module] can end: an exception with the world
    untouched, or an object with its class name put into the config. *)
Lemma register_module_outcome (model_or_path : ModelOrPath) (name : string)
    (w : World) :
  match snd (register_module model_or_path name w) with
  | inl _ => fst (register_module model_or_path name w) = w
  | inr model =>
      fst (register_module model_or_path name w)
      = fst (register_to_config name (class_name model) w)
  end.
Proof.
  unfold register_module, bind, get_self, ret, lift. cbn.
  destruct model_or_path as [path | o]; cbn; [| reflexivity].
  destruct (dict_get (init_annotations (self w)) name) as [cls |]; cbn;
    [| reflexivity].
  destruct (from_pretrained cls) as [load |]; cbn.
  - destruct (negb (String.eqb path "")); cbn.
    + destruct (load path (dtype (self w))) as [e | loaded]; cbn;
        [reflexivity |].
      destruct (cls_call cls) as [e | m]; reflexivity.
    + destruct (cls_call cls) as [e | m]; reflexivity.
  - destruct (cls_call cls) as [e | m]; reflexivity.
Qed.

(** X1.  Whatever it is given and however it ends, [register_module]
    changes nothing of the pipeline but the config entry of [name]: the
    collaborators, [guidance_scale], device and dtype stay, every other
    config key keeps its value, and when it raises the config is untouched
    too. *)
Theorem register_module_touches_only_its_config_entry
    (model_or_path : ModelOrPath) (name : string) (w : World) :
  let w' := fst (register_module model_or_path name w) in
  trace w' = trace w
  /\ vae (self w') = vae (self w)
  /\ text_encoder (self w') = text_encoder (self w)
  /\ tokenizer (self w') = tokenizer (self w)
  /\ transformer (self w') = transformer (self w)
  /\ scheduler (self w') = scheduler (self w)
  /\ tokenizer_max_length (self w') = tokenizer_max_length (self w)
  /\ guidance_scale (self w') = guidance_scale (self w)
  /\ device (self w') = device (self w)
  /\ dtype (self w') = dtype (self w)
  /\ init_annotations (self w') = init_annotations (self w)
  /\ (forall k, k <> name ->
        dict_get (config (self w')) k = dict_get (config (self w)) k)
  /\ (forall e, snd (register_module model_or_path name w) = raise e ->
        w' = w).
Proof.
  intros w'. subst w'.
  pose proof (register_module_outcome model_or_path name w) as H.
  destruct (snd (register_module model_or_path name w)) as [e | model].
  - rewrite H. repeat split; try reflexivity.
  - rewrite H. cbn. repeat split; try reflexivity.
    + intros k Hk. now apply dict_get_set_other.
    + intros e He. discriminate.
Qed.

Lemma register_module_key_error (path name : string) (w : World) :
  dict_get (init_annotations (self w)) name = None ->
  register_module (AsPath path) name w = (w, raise (KeyError name)).
Proof.
  intros H. unfold register_module, bind, get_self, lift. cbn.
  rewrite H. reflexivity.
Qed.

(** X2.  A path for a name that [__init__] does not annotate raises
    [KeyError] with that name; nothing is loaded, built or recorded. *)
Theorem register_module_unannotated_name (path name : string) (w : World) :
  dict_get (init_annotations (self w)) name = None ->
  register_module (AsPath path) name w = (w, raise (KeyError name)).
Proof. apply register_module_key_error. Qed.

Lemma register_module_unannotated_name_witness :
  register_module (AsPath "checkpoints/transformer") "transformer" guided
  = (guided, raise (KeyError "transformer")).
Proof.
  apply (@register_module_unannotated_name "checkpoints/transformer"
           "transformer" guided eq_refl).
Defined.

(** X3.  Whenever [register_module] returns an object, the config holds
    that object's class name under [name]. *)
Theorem register_module_config_names_result (model_or_path : ModelOrPath)
    (name : string) (w w' : World) (model : PyObject) :
  register_module model_or_path name w = (w', ok model) ->
  dict_get (config (self w')) name = Some (class_name model).
Proof.
  intros H.
  pose proof (register_module_outcome model_or_path name w) as Ho.
  rewrite H in Ho. unfold ok in Ho. cbn [fst snd] in Ho. rewrite Ho.
  cbn. apply dict_get_set.
Qed.

Lemma register_module_config_names_result_witness :
  dict_get
    (config (self (fst (register_module
                          (AsObject (example_object "AutoencoderKL")) "vae"
                          guided))))
    "vae"
  = Some "AutoencoderKL".
Proof.
  apply (@register_module_config_names_result
           (AsObject (example_object "AutoencoderKL")) "vae" guided _
           (example_object "AutoencoderKL") eq_refl).
Defined.

(** X4.  When the path is not empty and [from_pretrained] raises, the
    exception leaves [register_module] as it is: [cls()] is not tried and
    nothing is recorded. *)
Theorem register_module_load_failure (path name : string) (w : World)
    (cls : PyClass) (load : string -> DType -> result PyObject) (e : exn) :
  dict_get (init_annotations (self w)) name = Some cls ->
  from_pretrained cls = Some load ->
  path <> "" ->
  load path (dtype (self w)) = raise e ->
  register_module (AsPath path) name w = (w, raise e).
Proof.
  intros Hcls Hload Hpath He.
  unfold register_module, bind, get_self, lift. cbn.
  rewrite Hcls. cbn. rewrite Hload.
  apply String.eqb_neq in Hpath. rewrite Hpath. cbn.
  rewrite He. reflexivity.
Qed.

(** X5.  With the empty string as path the loader is never consulted: the
    result is [cls()] whatever [from_pretrained] would do. *)
Theorem register_module_empty_path (name : string) (w : World)
    (cls : PyClass) :
  dict_get (init_annotations (self w)) name = Some cls ->
  snd (register_module (AsPath "") name w) = cls_call cls.
Proof.
  intros Hcls.
  unfold register_module, bind, get_self, ret, lift, register_to_config,
    put_self. cbn.
  rewrite Hcls. cbn.
  destruct (from_pretrained cls); cbn; destruct (cls_call cls); reflexivity.
Qed.

Lemma register_module_load_failure_witness :
  register_module (AsPath "checkpoints/vae") "vae"
    (annotated_world [("vae", example_unloadable_class "AutoencoderKL")])
  = (annotated_world [("vae", example_unloadable_class "AutoencoderKL")],
     raise (CollaboratorError "no such checkpoint")).
Proof.
  apply (@register_module_load_failure "checkpoints/vae" "vae"
           (annotated_world
              [("vae", example_unloadable_class "AutoencoderKL")])
           (example_unloadable_class "AutoencoderKL")
           (fun _ _ => raise (CollaboratorError "no such checkpoint"))
           (CollaboratorError "no such checkpoint")
           eq_refl eq_refl);
    [discriminate | reflexivity].
Defined.

Lemma register_module_empty_path_witness :
  snd (register_module (AsPath "") "vae"
         (annotated_world [("vae", example_unloadable_class "AutoencoderKL")]))
  = ok {| class_name := "AutoencoderKL"; is_nn_module := true;
          origin := Constructed; placed_on := None |}.
Proof.
  apply (@register_module_empty_path "vae"
           (annotated_world
              [("vae", example_unloadable_class "AutoencoderKL")])
           (example_unloadable_class "AutoencoderKL") eq_refl).
Defined.

(** X6.  Given five objects, the registrations of [__init__] return them
    in the order vae, text encoder, tokenizer, transformer, scheduler,
    leave the config with each one's class name under its own key, and
    keep every other key. *)
Theorem register_components_objects (tr sc v te tk : PyObject) (w : World) :
  let r := register_components (AsObject tr) (AsObject sc) (AsObject v)
             (AsObject te) (AsObject tk) w in
  let cfg := config (self (fst r)) in
  snd r = ok (v, te, tk, tr, sc)
  /\ dict_get cfg "vae" = Some (class_name v)
  /\ dict_get cfg "text_encoder" = Some (class_name te)
  /\ dict_get cfg "tokenizer" = Some (class_name tk)
  /\ dict_get cfg "transformer" = Some (class_name tr)
  /\ dict_get cfg "scheduler" = Some (class_name sc)
  /\ (forall k,
        k <> "vae" -> k <> "text_encoder" -> k <> "tokenizer" ->
        k <> "transformer" -> k <> "scheduler" ->
        dict_get cfg k = dict_get (config (self w)) k).
Proof.
  intros r cfg. subst cfg r.
  unfold register_components, register_module, bind, get_self, ret, lift,
    register_to_config, put_self. cbn.
  split; [reflexivity |].
  repeat split.
  - rewrite !dict_get_set_other by discriminate. apply dict_get_set.
  - rewrite !dict_get_set_other by discriminate. apply dict_get_set.
  - rewrite !dict_get_set_other by discriminate. apply dict_get_set.
  - rewrite !dict_get_set_other by discriminate. apply dict_get_set.
  - apply dict_get_set.
  - intros k H1 H2 H3 H4 H5.
    rewrite !dict_get_set_other by assumption. reflexivity.
Qed.

End RegistrationMore.

(** ** Edge cases of [encode_prompt] *)

Section PromptMore.

Local Open Scope string_scope.

(** X7.  With [guidance_scale <= 1] the negative prompt has no influence on
    what [encode_prompt] encodes or returns. *)
Theorem encode_prompt_ignores_negative_without_guidance (w : World)
    (prompt : PromptArg) (k : nat) (negative1 negative2 : option PromptArg) :
  (guidance_scale (self w) <= 1)%Q ->
  encode_prompt prompt k negative1 w = encode_prompt prompt k negative2 w.
Proof.
  intros Hg. apply Qgtb_false in Hg.
  rewrite !encode_prompt_run, Hg. reflexivity.
Qed.

Lemma encode_prompt_ignores_negative_without_guidance_witness :
  encode_prompt (PStr "a red ball") 2 (Some (PStr "blurry")) unguided
  = encode_prompt (PStr "a red ball") 2 None unguided.
Proof.
  apply (@encode_prompt_ignores_negative_without_guidance unguided
           (PStr "a red ball") 2 (Some (PStr "blurry")) None).
  discriminate.
Defined.

(** X8.  An empty string and an empty list as negative prompt are the same
    as no negative prompt: all three are falsy for [a or b]. *)
Theorem empty_negative_prompt_is_absent (w : World) (prompt : PromptArg)
    (k : nat) :
  encode_prompt prompt k (Some (PStr "")) w = encode_prompt prompt k None w
  /\ encode_prompt prompt k (Some (PList [])) w
     = encode_prompt prompt k None w.
Proof.
  rewrite !encode_prompt_run.
  rewrite select_or_pad_string, select_or_pad_empty_list,
    select_or_pad_absent.
  split; reflexivity.
Qed.

(** X9.  With an empty list of prompts and a negative prompt that is absent
    or a string, the encoder is asked for the empty list whether guidance is
    on or not; with a non-empty negative list and guidance on it is asked for
    the negative texts alone. *)
Theorem encode_prompt_without_prompts (w : World) (k : nat)
    (negative_prompt : option PromptArg) :
  let encoder := encode_prompts (text_embed (transformer (self w))) in
  (negative_prompt = None \/ (exists s, negative_prompt = Some (PStr s)) ->
   encode_prompt (PList []) k negative_prompt w
   = (w, result_bind (encoder []) (repeat_interleave k)))
  /\ (forall s l,
        negative_prompt = Some (PList (s :: l)) ->
        (1 < guidance_scale (self w))%Q ->
        encode_prompt (PList []) k negative_prompt w
        = (w, result_bind (encoder (s :: l)) (repeat_interleave k))).
Proof.
  intros encoder. split.
  - intros [-> | [s ->]]; rewrite encode_prompt_run; cbn [as_prompt_list];
      [rewrite select_or_pad_absent | rewrite select_or_pad_string];
      cbn [List.length repeat app];
      destruct (Qgtb _ _); reflexivity.
  - intros s l -> Hg. apply Qgtb_true in Hg.
    rewrite encode_prompt_run, Hg. reflexivity.
Qed.

Lemma no_repeats (ls : list (list Q)) :
  List.concat (flat_map (fun r => repeat r 0) ls) = [].
Proof. induction ls as [| r ls IH]; [reflexivity | exact IH]. Qed.

(** X10.  With [num_images_per_prompt = 0] and an encoder that answers a
    tensor of rank at least one, [encode_prompt] returns a tensor of no
    rows: the trailing shape of the encoder and an empty buffer. *)
Theorem encode_prompt_zero_images (w : World) (prompt : PromptArg)
    (negative_prompt : option PromptArg) (c : tensor) (n : nat)
    (rest : list nat) :
  encode_prompts (text_embed (transformer (self w)))
    (as_prompt_list prompt
     ++ (if Qgtb (guidance_scale (self w)) 1
         then select_or_pad negative_prompt (PStr "")
                (List.length (as_prompt_list prompt))
         else []))%list = ok c ->
  shape c = n :: rest ->
  encode_prompt prompt 0 negative_prompt w = (w, ok (Tensor (0 :: rest) [])).
Proof.
  intros Henc Hs. rewrite encode_prompt_run, Henc.
  cbn [result_bind ok]. unfold repeat_interleave. rewrite Hs.
  rewrite Nat.mul_0_r, no_repeats. reflexivity.
Qed.

Lemma encode_prompt_zero_images_witness :
  encode_prompt (PList ["a"; "bb"]) 0 None guided
  = (guided, ok (Tensor [0; 1] [])).
Proof.
  apply (@encode_prompt_zero_images guided (PList ["a"; "bb"]) None
           (Tensor [4; 1] [1; 2; 0; 0]%Q) 4 [1] eq_refl eq_refl).
Defined.

End PromptMore.

(** ** Failures and invariants of [__call__] *)

Section CallMore.

Local Open Scope string_scope.

Lemma set_guidance_scale_fields (g : Q) (w : World) :
  guidance_scale (self (fst (set_guidance_scale g w))) = g
  /\ transformer (self (fst (set_guidance_scale g w))) = transformer (self w)
  /\ vae (self (fst (set_guidance_scale g w))) = vae (self w).
Proof. repeat split. Qed.

(** X11.  When the text encoder raises on the assembled prompts, [__call__]
    ends with that exception: [guidance_scale] has been set, nothing else
    has happened (no latent prepared, no generation, no conversion). *)
Theorem call_stops_at_encoder_error {np : Schedule.Numpy} (a : CallArgs) (w : World) (e : exn) :
  let g := arg_guidance_scale a in
  let positives := as_prompt_list (arg_prompt a) in
  let sent :=
    (positives
     ++ (if Qgtb g 1
         then select_or_pad (arg_negative_prompt a) (PStr "")
                (List.length positives)
         else []))%list in
  encode_prompts (text_embed (transformer (self w))) sent = raise e ->
  __call__ a w = (fst (set_guidance_scale g w), raise e).
Proof.
  intros g positives sent Henc.
  set (w1 := fst (set_guidance_scale g w)).
  assert (Hp : encode_prompt (arg_prompt a) (arg_num_images_per_prompt a)
                 (arg_negative_prompt a) w1 = (w1, raise e)).
  { rewrite encode_prompt_run.
    change (guidance_scale (self w1)) with g.
    change (transformer (self w1)) with (transformer (self w)).
    fold positives. fold sent. rewrite Henc. reflexivity. }
  assert (Hin : prepare_inputs a w1 = (w1, raise e)).
  { unfold prepare_inputs.
    rewrite (bind_ok (w := w1) (w' := w1) (a := self w1) _ eq_refl).
    apply (bind_raise _ Hp). }
  assert (Hs : sample a w = (w1, raise e)).
  { unfold sample.
    rewrite (bind_ok _ (set_guidance_scale_run g w)).
    apply (bind_raise _ Hin). }
  unfold __call__. apply (bind_raise _ Hs).
Qed.

Lemma call_stops_at_encoder_error_witness :
  __call__ (np := Binary64.numpy)
      (example_args (PStr "a red ball") 5%Q None "pil") encoder_down
  = (fst (set_guidance_scale 5%Q encoder_down),
     raise (CollaboratorError "tokenizer missing")).
Proof.
  apply (@call_stops_at_encoder_error Binary64.numpy
           (example_args (PStr "a red ball") 5%Q None "pil") encoder_down
           (CollaboratorError "tokenizer missing") eq_refl).
Defined.

(** X12.  Once the inputs are assembled, an exception of the transformer,
    in generation or in post-processing, ends [__call__] with that
    exception before anything is brought to host memory. *)
Theorem call_stops_at_transformer_error {np : Schedule.Numpy} (a : CallArgs) (w : World)
    (inputs : Inputs) (e : exn) :
  let w1 := fst (set_guidance_scale (arg_guidance_scale a) w) in
  prepare_inputs a w1 = (w1, ok inputs) ->
  generate (transformer (self w)) inputs = raise e
  \/ (exists x, generate (transformer (self w)) inputs = ok x
                /\ postprocess (transformer (self w)) x (vae (self w)) inputs
                   = raise e) ->
  __call__ a w = (w1, raise e).
Proof.
  intros w1 Hin Hfail.
  assert (Hs : sample a w = (w1, raise e)).
  { rewrite (@sample_run np a w inputs Hin).
    destruct Hfail as [Hg | (x & Hg & Hp)]; rewrite Hg;
      unfold result_bind, ok, raise; [reflexivity | exact (f_equal _ Hp)]. }
  unfold __call__. apply (bind_raise _ Hs).
Qed.

Lemma call_stops_at_transformer_error_witness :
  __call__ (np := Binary64.numpy)
      (example_args (PStr "a red ball") 5%Q None "pil") transformer_down
  = (fst (set_guidance_scale 5%Q transformer_down),
     raise (CollaboratorError "CUDA out of memory")).
Proof.
  apply (@call_stops_at_transformer_error Binary64.numpy
           (example_args (PStr "a red ball") 5%Q None "pil") transformer_down
           (assemble_inputs (np := Binary64.numpy)
              (example_args (PStr "a red ball") 5%Q None "pil")
              (self (fst (set_guidance_scale 5%Q transformer_down)))
              (Tensor [2; 1] [10; 0]%Q) [] 2)
           (CollaboratorError "CUDA out of memory") eq_refl).
  left. reflexivity.
Defined.

(** X17.  [encode_prompt] called on its own after a [__call__] decides on
    the negative prompts by the [guidance_scale] of that call, whatever the
    pipeline held before and however the call ended. *)
Theorem encode_prompt_after_call_uses_call_guidance {np : Schedule.Numpy} (a : CallArgs)
    (w : World) (prompt : PromptArg) (k : nat)
    (negative_prompt : option PromptArg) :
  let w' := fst (__call__ a w) in
  encode_prompt prompt k negative_prompt w'
  = (w',
     result_bind
       (encode_prompts (text_embed (transformer (self w)))
          (as_prompt_list prompt
           ++ (if Qgtb (arg_guidance_scale a) 1
               then select_or_pad negative_prompt (PStr "")
                      (List.length (as_prompt_list prompt))
               else []))%list)
       (repeat_interleave k)).
Proof.
  intros w'. rewrite encode_prompt_run. subst w'.
  rewrite call_self. reflexivity.
Qed.

End CallMore.

(** ** What the transformer is handed *)

Section InputsMore.

Local Open Scope string_scope.

Lemma reads_only_result {A : Type} (m : M A) (w : World) :
  reads_only m -> m w = (w, snd (m w)).
Proof.
  intros H. specialize (H w). destruct (m w) as [w' r]. cbn in *. now subst.
Qed.

(** If [prepare_inputs] returns, each of its steps did. *)
Lemma prepare_inputs_inv {np : Schedule.Numpy} (a : CallArgs) (w w' : World) (inputs : Inputs) :
  prepare_inputs a w = (w', ok inputs) ->
  exists e latents n,
    w' = w
    /\ encode_prompt (arg_prompt a) (arg_num_images_per_prompt a)
         (arg_negative_prompt a) w = (w, ok e)
    /\ prepare_latents (arg_image a) (arg_num_images_per_prompt a)
         (arg_generator a) w = (w, ok latents)
    /\ py_len e = ok n
    /\ inputs = assemble_inputs a (self w) e latents n.
Proof.
  unfold prepare_inputs.
  rewrite (bind_ok (w := w) (w' := w) (a := self w) _ eq_refl).
  pose proof (reads_only_result w
                (reads_only_encode_prompt (arg_prompt a)
                   (arg_num_images_per_prompt a) (arg_negative_prompt a)))
    as Hp.
  pose proof (reads_only_result w
                (reads_only_prepare_latents (arg_image a)
                   (arg_num_images_per_prompt a) (arg_generator a)))
    as Hl.
  destruct (snd (encode_prompt _ _ _ w)) as [err | e].
  { rewrite (bind_raise _ Hp). discriminate. }
  rewrite (bind_ok _ Hp).
  destruct (snd (prepare_latents _ _ _ w)) as [err | latents].
  { rewrite (bind_raise _ Hl). discriminate. }
  rewrite (bind_ok _ Hl).
  unfold bind, lift, ret.
  destruct (py_len e) as [err | n] eqn:Hn; [discriminate |].
  intros H. injection H as <- <-.
  exists e, latents, n. repeat split; assumption.
Qed.

Lemma prepare_latents_inv (image : option tensor) (k : nat)
    (generator : option Generator) (w w' : World) (latents : list tensor) :
  prepare_latents image k generator w = (w', ok latents) ->
  (image = None /\ latents = [])
  \/ (exists img latent, image = Some img /\ latents = [latent]).
Proof.
  unfold prepare_latents. destruct image as [img |].
  - unfold bind, ret.
    destruct (encode_image img k generator w) as [w1 [err | latent]];
      [discriminate |].
    intros H. injection H as _ <-. right. now exists img, latent.
  - unfold ret. intros H. injection H as _ <-. now left.
Qed.

(** X13.  Whenever the inputs are assembled: the pipeline is as before;
    [motion_flow] is a list of [batch_size] copies of the argument;
    [batch_size] is the row count of the encoded prompt, halved (rounding
    down) exactly when [guidance_scale > 1]; there is one latent when an
    image was given and none otherwise; at most one of the two progress
    flags is set, and one is set exactly when [max_latent_length >= 1]. *)
Theorem prepare_inputs_invariants {np : Schedule.Numpy} (a : CallArgs) (w w' : World)
    (inputs : Inputs) :
  prepare_inputs a w = (w', ok inputs) ->
  w' = w
  /\ in_motion_flow inputs
     = repeat (arg_motion_flow a) (in_batch_size inputs)
  /\ List.length (in_motion_flow inputs) = in_batch_size inputs
  /\ (exists n,
        py_len (in_prompt inputs) = ok n
        /\ in_batch_size inputs
           = Nat.div n (if Qgtb (arg_guidance_scale a) 1 then 2 else 1))
  /\ (arg_image a = None -> in_latents inputs = [])
  /\ (arg_image a <> None -> List.length (in_latents inputs) = 1)
  /\ in_tqdm1 inputs && in_tqdm2 inputs = false
  /\ (in_tqdm1 inputs || in_tqdm2 inputs = true
      <-> 1 <= arg_max_latent_length a).
Proof.
  intros H.
  destruct (@prepare_inputs_inv _ _ _ _ _ H)
    as (e & latents & n & -> & He & Hl & Hn & ->).
  unfold assemble_inputs.
  cbn [in_motion_flow in_batch_size in_prompt in_latents in_tqdm1 in_tqdm2].
  split; [reflexivity |]. split; [reflexivity |].
  split; [apply repeat_length |].
  split; [exists n; split; [exact Hn | reflexivity] |].
  apply prepare_latents_inv in Hl.
  split; [| split].
  - intros Hi. destruct Hl as [[_ ->] | (img & latent & Himg & _)];
      [reflexivity | congruence].
  - intros Hi. destruct Hl as [[Himg _] | (img & latent & _ & ->)];
      [congruence | reflexivity].
  - split.
    + destruct (Nat.ltb_spec 1 (arg_max_latent_length a));
        destruct (Nat.eqb_spec (arg_max_latent_length a) 1);
        try reflexivity; lia.
    + destruct (Nat.ltb_spec 1 (arg_max_latent_length a));
        destruct (Nat.eqb_spec (arg_max_latent_length a) 1);
        cbn; split; intros; try lia; try reflexivity; discriminate.
Qed.

Lemma prepare_inputs_invariants_witness :
  let a := example_args (PList ["a cat"; "a dog"]) 5%Q None "pil" in
  let inputs :=
    assemble_inputs (np := Binary64.numpy) a (self guided) (Tensor [4; 1] [5; 5; 0; 0]%Q) [] 4 in
  in_motion_flow inputs = [5%Q; 5%Q]
  /\ in_batch_size inputs = 2
  /\ in_latents inputs = [].
Proof.
  intros a inputs.
  destruct (@prepare_inputs_invariants Binary64.numpy a guided guided inputs eq_refl)
    as (_ & Hm & _ & _ & Hl & _).
  split; [exact Hm |]. split; [reflexivity |]. apply Hl. reflexivity.
Defined.

End InputsMore.

(** ** Seed images of the wrong rank *)

Section ImageMore.

Lemma permute_needs_rank_3 (t : tensor) :
  rank t <> 3 -> permute_2_0_1 t = raise RuntimeError.
Proof.
  unfold rank, permute_2_0_1.
  destruct (shape t) as [| a [| b [| c [| d rest]]]]; cbn [List.length];
    intros H; try reflexivity.
  congruence.
Qed.

(** X14.  An image that is not of rank 3 (a grey-scale [(H, W)] array, a
    batch of images) makes [permute(2, 0, 1)] fail: [encode_image] and
    [prepare_latents] raise [RuntimeError] and the VAE is never asked. *)
Theorem encode_image_needs_rank_3 (w : World) (image : tensor) (k : nat)
    (generator : option Generator) :
  rank image <> 3 ->
  encode_image image k generator w = (w, raise RuntimeError)
  /\ prepare_latents (Some image) k generator w = (w, raise RuntimeError).
Proof.
  intros Hr.
  assert (He : encode_image image k generator w = (w, raise RuntimeError)).
  { unfold encode_image.
    rewrite (bind_ok (w := w) (w' := w) (a := self w) _ eq_refl).
    unfold bind, lift.
    rewrite (permute_needs_rank_3 (normalize image)) by exact Hr.
    reflexivity. }
  split; [exact He |].
  unfold prepare_latents. apply (bind_raise _ He).
Qed.

Lemma encode_image_needs_rank_3_witness :
  encode_image (Tensor [2; 2] [0; 64; 128; 255]%Q) 1 None guided
  = (guided, raise RuntimeError)
  /\ prepare_latents (Some (Tensor [2; 2] [0; 64; 128; 255]%Q)) 1 None guided
     = (guided, raise RuntimeError).
Proof.
  apply (@encode_image_needs_rank_3 guided
           (Tensor [2; 2] [0; 64; 128; 255]%Q) 1 None).
  discriminate.
Defined.

End ImageMore.

(** ** More on the shaped result *)

Section OutputMore.

Local Open Scope string_scope.

Lemma concat_chunks (n m : nat) (l : list Q) :
  List.length l = n * m -> List.concat (chunks n m l) = l.
Proof.
  revert l. induction n as [| n IH]; intros l Hl; cbn [chunks List.concat].
  - destruct l; [reflexivity | discriminate].
  - rewrite IH by (rewrite length_skipn; cbn in Hl; lia).
    apply firstn_skipn.
Qed.

(** X15.  With [output_type = "pil"] and a well-formed tensor of shape
    [(B, H, W, C)], the result holds exactly [B] PIL images, each over an
    [(H, W, C)] array, and their pixels laid end to end are the buffer of
    the tensor: no entry is lost, repeated or reordered. *)
Theorem pil_images_one_per_batch_entry {np : Schedule.Numpy} (a : CallArgs) (w w' : World)
    (x : tensor) (b h wd c : nat) :
  sample a w = (w', ok x) ->
  arg_output_type a = "pil" ->
  shape x = [b; h; wd; c] ->
  well_formed x ->
  exists imgs,
    snd (__call__ a w)
    = ok (Output {| images := Some (PILImages imgs); frames := None |})
    /\ List.length imgs = b
    /\ Forall (fun img => shape (pixels img) = [h; wd; c]
                          /\ well_formed (pixels img)) imgs
    /\ List.concat (map (fun img => data (pixels img)) imgs) = data x.
Proof.
  intros Hs Ht Hshape Hwf.
  assert (Hr : rank x = 4) by (unfold rank; now rewrite Hshape).
  destruct (@format_output_images_pil x w' Hr) as (slices & Hu & _ & Hf).
  unfold unbind in Hu. rewrite Hshape in Hu. injection Hu as <-.
  unfold well_formed in Hwf. rewrite Hshape in Hwf.
  change (numel [b; h; wd; c]) with (b * numel [h; wd; c]) in Hwf.
  pose proof (chunks_sizes b (numel [h; wd; c]) (data x) Hwf) as Hsz.
  eexists. split; [| split; [| split]].
  - rewrite (@call_after_sample _ _ _ _ _ Hs), Ht, Hf. reflexivity.
  - rewrite !length_map. apply chunks_length.
  - rewrite map_map. apply Forall_map.
    eapply Forall_impl; [| exact Hsz].
    intros r Hlen. cbn. split; [reflexivity | exact Hlen].
  - rewrite !map_map. cbn. rewrite map_id. now apply concat_chunks.
Qed.

Lemma pil_images_one_per_batch_entry_witness :
  exists imgs,
    snd (__call__ (np := Binary64.numpy)
      (example_args (PStr "a red ball") 5%Q None "pil")
           (example_world [2; 1; 1; 3]))
    = ok (Output {| images := Some (PILImages imgs); frames := None |})
    /\ List.length imgs = 2.
Proof.
  destruct (@pil_images_one_per_batch_entry Binary64.numpy
              (example_args (PStr "a red ball") 5%Q None "pil")
              (example_world [2; 1; 1; 3])
              (fst (set_guidance_scale 5%Q (example_world [2; 1; 1; 3])))
              (Tensor [2; 1; 1; 3] (repeat 0%Q 6)) 2 1 1 3
              eq_refl eq_refl eq_refl eq_refl)
    as (imgs & H1 & H2 & _).
  exists imgs. split; assumption.
Defined.

(** X16.  Whatever [__call__] returns tells which request was made: a bare
    tensor only for ["latent"] or ["pt"]; otherwise an output with exactly
    one of [images] and [frames] set, and [frames] is always a numpy array,
    never a list of PIL images. *)
Theorem call_result_kinds {np : Schedule.Numpy} (a : CallArgs) (w w' : World) (r : CallResult) :
  __call__ a w = (w', ok r) ->
  match r with
  | RawTensor _ =>
      arg_output_type a = "latent" \/ arg_output_type a = "pt"
  | Output o =>
      arg_output_type a <> "latent" /\ arg_output_type a <> "pt"
      /\ ((exists v, images o = Some v /\ frames o = None)
          \/ (exists y, frames o = Some (NumpyArray y) /\ images o = None))
  end.
Proof.
  unfold __call__, bind.
  destruct (sample a w) as [w1 [e | x]]; [discriminate |].
  set (t := arg_output_type a).
  destruct (string_dec t "latent") as [Hl | Hl].
  { rewrite format_output_raw by (now left).
    intros H. injection H as _ <-. now left. }
  destruct (string_dec t "pt") as [Hp | Hp].
  { rewrite format_output_raw by (now right).
    intros H. injection H as _ <-. now right. }
  destruct (Nat.eq_dec (rank x) 5) as [H5 | H5].
  { rewrite (@format_output_frames t x w1 Hl Hp H5).
    intros H. injection H as _ <-.
    split; [exact Hl |]. split; [exact Hp |]. right. now exists x. }
  destruct (Nat.eq_dec (rank x) 4) as [H4 | H4].
  - destruct (string_dec t "pil") as [Hpil | Hpil].
    + rewrite Hpil.
      destruct (@format_output_images_pil x w1 H4) as (slices & _ & _ & Hf).
      rewrite Hf. intros H. injection H as _ <-.
      rewrite <- Hpil.
      split; [exact Hl |]. split; [exact Hp |]. left. eexists. now split.
    + rewrite (@format_output_images_array t x w1 Hl Hp Hpil H4).
      intros H. injection H as _ <-.
      split; [exact Hl |]. split; [exact Hp |]. left. eexists. now split.
  - rewrite (@format_output_unknown_rank t x w1 Hl Hp H4 H5). discriminate.
Qed.

Lemma call_result_kinds_witness :
  arg_output_type (example_args (PStr "a red ball") 5%Q None "latent")
  = "latent"
  \/ arg_output_type (example_args (PStr "a red ball") 5%Q None "latent")
     = "pt".
Proof.
  apply (@call_result_kinds Binary64.numpy
           (example_args (PStr "a red ball") 5%Q None "latent") guided
           (fst (set_guidance_scale 5%Q guided))
           (RawTensor (Tensor [1; 1; 1; 3] [0; 0; 0]%Q)) eq_refl).
Defined.

End OutputMore.

(** ** More on the mask schedule *)

Section ScheduleMore.

Import Schedule.

(** X19.  With [num_inference_steps = 0] the schedule has a single entry
    and so no difference: [num_preds] is empty, whatever the patch count. *)
Theorem no_steps_no_reveals {np : Numpy} (num_patches : Z) :
  num_preds 0 num_patches = [].
Proof. reflexivity. Qed.

(** X20.  In what [__call__] hands to the transformer, the first [i]
    entries of [num_preds] add up to the patch count minus entry [i] of the
    mask length, [round(cos(0.5*pi*i/S) * num_patches)] as float64
    computes it: after [i] steps exactly [mask_length[i]] patches are still
    masked. *)
Theorem revealed_so_far_follows_mask_length {np : Numpy}
    (contract : FloatContract np) (a : CallArgs) (p : Pipeline)
    (prompt : tensor) (latents : list tensor) (n i : nat) :
  let inputs := assemble_inputs a p prompt latents n in
  let steps := arg_num_inference_steps a in
  1 <= steps ->
  (Z.of_nat steps < 2 ^ 63)%Z ->
  (0 <= in_num_patches inputs <= 2 ^ 53)%Z ->
  i <= steps ->
  array_sum (firstn i (in_num_preds inputs))
  = (in_num_patches inputs
     - mask_length_at steps (in_num_patches inputs) i)%Z.
Proof.
  intros inputs steps Hs Hfit HP Hi.
  apply (num_preds_shape contract Hs Hfit HP). exact Hi.
Qed.

Lemma revealed_so_far_follows_mask_length_witness :
  let a := example_args (PStr "a red ball") 5%Q None "pil" in
  let inputs :=
    assemble_inputs (np := Exact.numpy) a (self guided)
      (Tensor [2; 1] [10; 0]%Q) [] 2 in
  array_sum (firstn 32 (in_num_preds inputs))
  = (in_num_patches inputs
     - mask_length_at (np := Exact.numpy) 64 (in_num_patches inputs) 32)%Z.
Proof.
  intros a inputs.
  apply (@revealed_so_far_follows_mask_length Exact.numpy exact_contract a
           (self guided) (Tensor [2; 1] [10; 0]%Q) [] 2 32).
  - cbn. lia.
  - cbn. lia.
  - change (in_num_patches
              (assemble_inputs (np := Exact.numpy) a (self guided)
                 (Tensor [2; 1] [10; 0]%Q) [] 2))
      with (num_patches_of [16%Z; 16%Z]).
    replace (num_patches_of [16%Z; 16%Z]) with 256%Z by reflexivity. lia.
  - cbn. lia.
Defined.

End ScheduleMore.

(** ** Remaining facts on dispatch, frames and partial registration *)

Section DispatchMore.

Local Open Scope string_scope.

(** X21.  Of all the keys [inputs] holds when line 118 runs, the test
    ["prompt" in key] keeps exactly [prompt], [negative_prompt] and
    [num_images_per_prompt], the three parameters of [encode_prompt];
    [kwargs], [self] and the rest are left out. *)
Theorem encode_prompt_keywords :
  prompt_kwargs = ["prompt"; "negative_prompt"; "num_images_per_prompt"]
  /\ Forall (fun key =>
               In key prompt_kwargs \/ str_contains "prompt" key = false)
       inputs_keys.
Proof.
  split; [reflexivity |].
  unfold inputs_keys.
  repeat (constructor; [first [right; reflexivity | left; cbn; tauto] |]).
  constructor.
Qed.

(** X22.  [encode_prompt], [encode_image] and [prepare_latents] only read
    the pipeline: whatever their arguments and outcome, no field and no
    trace entry changes. *)
Theorem helper_methods_only_read (w : World) (prompt : PromptArg) (k : nat)
    (negative_prompt : option PromptArg) (image : tensor)
    (optional_image : option tensor) (generator : option Generator) :
  fst (encode_prompt prompt k negative_prompt w) = w
  /\ fst (encode_image image k generator w) = w
  /\ fst (prepare_latents optional_image k generator w) = w.
Proof.
  split; [apply reads_only_encode_prompt |].
  split; [apply reads_only_encode_image | apply reads_only_prepare_latents].
Qed.

(** X23.  The registrations stop at the first one that raises: with an
    object for the VAE and a path for a text encoder that [__init__] does
    not annotate, the outcome is [KeyError("text_encoder")], the config
    already names the VAE's class, and no later component is registered. *)
Theorem register_components_stops_at_first_failure
    (tr sc tk : ModelOrPath) (v : PyObject) (path : string) (w : World) :
  dict_get (init_annotations (self w)) "text_encoder" = None ->
  register_components tr sc (AsObject v) (AsPath path) tk w
  = (fst (register_to_config "vae" (class_name v) w),
     raise (KeyError "text_encoder")).
Proof.
  intros Hnone. unfold register_components.
  rewrite (bind_ok (m := register_module (AsObject v) "vae")
             (w := w) (w' := fst (register_to_config "vae" (class_name v) w))
             (a := v) _ eq_refl).
  apply bind_raise.
  apply register_module_key_error. exact Hnone.
Qed.

Lemma register_components_stops_at_first_failure_witness :
  register_components (AsObject NoneObject) (AsObject NoneObject)
    (AsObject (example_object "AutoencoderKL")) (AsPath "checkpoints/t5")
    (AsObject NoneObject) guided
  = (fst (register_to_config "vae" "AutoencoderKL" guided),
     raise (KeyError "text_encoder")).
Proof.
  apply (@register_components_stops_at_first_failure
           (AsObject NoneObject) (AsObject NoneObject) (AsObject NoneObject)
           (example_object "AutoencoderKL") "checkpoints/t5" guided eq_refl).
Defined.

End DispatchMore.

(** ** The reveal counts that [__call__] hands to the transformer *)

Section ScheduleInCall.

Import Schedule.
Local Open Scope string_scope.




End ScheduleInCall.

(** ** The schedule run on the machine's floats *)

Section Binary64Samples.

Import Schedule.
Import PrimFloat.

(** The closed clauses of the contract, and samples of the others, on the
    machine's floats.  The stand-in cosine returns at the float nearest to
    [pi / 2] the value the C library returns there, [6.123233995736766e-17];
    [-1 * 0] is the negative zero, which is why the contract bounds that
    product instead of naming it. *)
Lemma binary64_samples :
  let np := Binary64.numpy in
  (fle (of_int64 1) (fmul half np_pi) /\ fle (fmul half np_pi) (of_int64 2))
  /\ np_cos (of_int64 0) = of_int64 1
  /\ np_cos (fmul half np_pi) = 0x1.1a62633145c07p-54%float
  /\ fmul (fmul half np_pi) (of_int64 0) = of_int64 0
  /\ fdiv (of_int64 0) (of_int64 64) = of_int64 0
  /\ fle (of_int64 0) (fmul (of_int64 (-1)) (of_int64 0))
  /\ fmul (of_int64 1) (of_int64 (2 ^ 53)) = of_int64 (2 ^ 53)
  /\ np_round (of_int64 (- 2 ^ 53)) = of_int64 (- 2 ^ 53)
  /\ to_int64 (of_int64 (2 ^ 53)) = (2 ^ 53)%Z
  /\ to_int64 (of_int64 (- 2 ^ 63)) = (- 2 ^ 63)%Z
  /\ to_int64 (fdiv (of_int64 0) (of_int64 0)) = (- 2 ^ 63)%Z
  /\ map (fun x => to_int64 (np_round x))
       [0.5; 1.5; 2.5; -0.5; -1.5; 0x1.fffffffffffffp-2]%float
     = [0; 2; 2; 0; -2; 0]%Z.
Proof. vm_compute. repeat split. Qed.

(** The same code on the machine's floats at everyday sizes: three steps
    over nine patches reveal 1, 3 and 5; 64 steps over 256 patches end on a
    mask length of 0 and reveal all 256. *)
Lemma binary64_schedules :
  num_preds (np := Binary64.numpy) 3 9 = [1; 3; 5]%Z
  /\ mask_length_at (np := Binary64.numpy) 64 256 64 = 0%Z
  /\ array_sum (num_preds (np := Binary64.numpy) 64 256) = 256%Z.
Proof. vm_compute. repeat split. Qed.

End Binary64Samples.
